(** * StyleShare: the post controllers of [backend/src/routes/post/controller.ts]

    A shallow embedding of the Express controllers that like, dislike,
    favorite, comment on, create and delete posts and that compute the
    leaderboard, over a model of the Prisma tables they use.  The
    controllers are written in a state-and-exception monad whose primitive
    actions are the Prisma calls of the source, one for one and in the
    source's order. *)

From Stdlib Require Import ZArith Lia Sorted Permutation.
From stdpp Require Import gmap strings list fin_maps.

Local Open Scope Z_scope.
Local Open Scope string_scope.

(** ** The tables *)

(** A [User] row: the columns the controllers read. *)
Record User := mkUser {
  user_id : string;
  username : string;
  verified : bool
}.

(** A [Post] row.  The primary key [id] is the key of the table. *)
Record Post := mkPost {
  title : string;
  codeSnippet : string;
  jsCodeSnippet : string;
  description : string;
  tags : list string;
  likes : Z;
  dislikes : Z;
  authorId : string
}.

(** A [UserPostInteraction] row.  The table has the compound unique key
    [userId_postId] (the source looks rows up through it), so the table is a
    map from that key; the surrogate [id] the source uses in
    [update({ where: { id: interaction.id } })] names the row that the
    preceding [findUnique] returned, that is the row at the same key. *)
Record UserPostInteraction := mkInteraction {
  liked : bool;
  disliked : bool
}.

(** A [Comment] row (the creation time stamp is not modelled). *)
Record Comment := mkComment {
  content : string;
  comment_userId : string;
  comment_postId : string
}.

(** The database.  [users] is kept in the order [findMany] enumerates it;
    [favorites] holds the [userId_postId] keys of the [Favorite] rows, which
    carry no other data. *)
Record Database := mkDatabase {
  users : list User;
  posts : gmap string Post;
  interactions : gmap (string * string) UserPostInteraction;
  favorites : gset (string * string);
  comments : list Comment
}.

Definition set_posts (f : gmap string Post → gmap string Post) (d : Database) : Database :=
  mkDatabase (users d) (f (posts d)) (interactions d) (favorites d) (comments d).

Definition set_interactions
    (f : gmap (string * string) UserPostInteraction → gmap (string * string) UserPostInteraction)
    (d : Database) : Database :=
  mkDatabase (users d) (posts d) (f (interactions d)) (favorites d) (comments d).

Definition set_favorites (f : gset (string * string) → gset (string * string))
    (d : Database) : Database :=
  mkDatabase (users d) (posts d) (interactions d) (f (favorites d)) (comments d).

Definition set_comments (f : list Comment → list Comment) (d : Database) : Database :=
  mkDatabase (users d) (posts d) (interactions d) (favorites d) (f (comments d)).

(** ** The monad of the controllers *)

(** What a Prisma call can throw. *)
Inductive PrismaError :=
| RecordNotFound        (* P2025: the row to update or delete does not exist *)
| UniqueConstraint      (* P2002 *)
| ForeignKeyConstraint  (* P2003 *)
| StorageFailure.       (* the storage layer is unavailable *)

(** The state threaded through a controller: the database, and [fault], the
    number of Prisma calls that still succeed before the storage layer
    fails ([None]: it never fails). *)
Record St := mkSt {
  db : Database;
  fault : option nat
}.

(** A computation returns a value or throws; the database keeps every write
    made before the throw, since the source opens no transaction. *)
Definition M (A : Type) : Type := St → (PrismaError + A) * St.

#[global] Instance M_ret : MRet M := λ A a s, (inr a, s).
#[global] Instance M_bind : MBind M := λ A B k m s,
  match m s with
  | (inl e, s') => (inl e, s')
  | (inr a, s') => k a s'
  end.

(** One Prisma call: [op] reads and writes the database. *)
Definition call {A} (op : Database → PrismaError + (A * Database)) : M A := λ s,
  match fault s with
  | Some O => (inl StorageFailure, s)
  | f =>
    match op (db s) with
    | inl e => (inl e, mkSt (db s) (pred <$> f))
    | inr (a, d') => (inr a, mkSt d' (pred <$> f))
    end
  end.
Arguments call : simpl never.

(** ** The leaderboard, on the rows [user.findMany] returns *)

(** A row of the leaderboard query: [id], [username], [_count.posts] and the
    [likes] of each of the user's posts. *)
Record UserWithPosts := mkUserWithPosts {
  uwp_id : string;
  uwp_username : string;
  uwp_count_posts : Z;
  uwp_posts : list Z
}.

Record UserLikes := mkUserLikes {
  ul_id : string;
  ul_username : string;
  postCount : Z;
  totalLikes : Z
}.

Record LeaderboardEntry := mkEntry {
  rank : Z;
  entry_userId : string;
  entry_username : string;
  entry_postCount : Z;
  entry_totalLikes : Z
}.

(** [Array.prototype.sort(compareFn)] is a stable sort: an element moves
    before another only when [compareFn] puts it strictly first.  It is
    modelled by the stable insertion sort. *)
Fixpoint sort_insert {A} (compareFn : A → A → Z) (x : A) (l : list A) : list A :=
  match l with
  | [] => [x]
  | y :: l' =>
    if (compareFn x y <=? 0)%Z then x :: y :: l' else y :: sort_insert compareFn x l'
  end.

Definition Array_sort {A} (compareFn : A → A → Z) (l : list A) : list A :=
  foldr (sort_insert compareFn) [] l.

(** [user.posts.reduce((sum, post) => sum + post.likes, 0)] *)
Definition sumLikes (postLikes : list Z) : Z :=
  foldl (λ sum l, sum + l) 0 postLikes.

Definition userLikes (leaderboard : list UserWithPosts) : list UserLikes :=
  map (λ user, mkUserLikes (uwp_id user) (uwp_username user)
                           (uwp_count_posts user) (sumLikes (uwp_posts user)))
      leaderboard.

(** [(a, b) => b.totalLikes - a.totalLikes] *)
Definition byTotalLikes (a b : UserLikes) : Z := totalLikes b - totalLikes a.

Definition toEntry (index : nat) (user : UserLikes) : LeaderboardEntry :=
  mkEntry (Z.of_nat index + 1) (ul_id user) (ul_username user)
          (postCount user) (totalLikes user).

(** The pure part of [getLeaderboardController]: map, sort, slice(0, 10),
    map with the index. *)
Definition computeLeaderboard (leaderboard : list UserWithPosts)
    : list LeaderboardEntry :=
  let sorted := Array_sort byTotalLikes (userLikes leaderboard) in
  let top10Users := take 10 sorted in
  imap toEntry top10Users.

(** ** Responses *)

Inductive Body :=
| ErrorStr (error : string)                         (* { error: "..." } *)
| ErrorMsg (message : string)                       (* { error: { message: "..." } } *)
| ErrorFields (fields : gmap string string)      (* { error: { path: "...", ... } } *)
| Message (message : string)                        (* { message: "..." } *)
| Reaction (message : string) (likes_ dislikes_ : option Z)
| CreatedPost (message : string) (id : string) (post : Post)
| CreatedComment (message : string) (comment : Comment)
| Leaderboard (leaderboard : list LeaderboardEntry).

Record Response := json {
  status : Z;
  body : Body
}.

(** [try { ... } catch (error) { res.status(500).json(handler) }] *)
Definition tryCatch (m : M Response) (handler : Body) (fault0 : option nat)
    (d : Database) : Response * Database :=
  match m (mkSt d fault0) with
  | (inl _, s) => (json 500 handler, db s)
  | (inr r, s) => (r, db s)
  end.

(** ** Requests *)

Record UserAuthRequest (B : Type) := mkReq {
  userId : option string;
  params_id : string;
  req_body : B
}.
Arguments mkReq {B} _ _ _.
Arguments userId {B} _.
Arguments params_id {B} _.
Arguments req_body {B} _.

(** [!userId]: [undefined] and the empty string are falsy. *)
Definition truthy (u : option string) : option string :=
  match u with
  | Some EmptyString => None
  | Some s => Some s
  | None => None
  end.

(** ** The Prisma calls of the controllers *)

(** The data of a [post.update] on the counters: [{ increment: 1 }] is
    [Some 1], [{ decrement: 1 }] is [Some (-1)], and [undefined] leaves the
    column as it is. *)
Record PostCounters := mkCounters {
  likes_delta : option Z;
  dislikes_delta : option Z
}.

Definition apply_counters (c : PostCounters) (p : Post) : Post :=
  mkPost (title p) (codeSnippet p) (jsCodeSnippet p) (description p) (tags p)
         (likes p + default 0 (likes_delta c))
         (dislikes p + default 0 (dislikes_delta c))
         (authorId p).

(** The fields of a validated [createPostSchema] payload. *)
Record PostData := mkPostData {
  data_title : string;
  data_codeSnippet : string;
  data_jsCodeSnippet : string;
  data_description : string;
  data_tags : list string
}.

Definition user_exists (d : Database) (u : string) : bool :=
  existsb (λ r, bool_decide (user_id r = u)) (users d).

Definition post_exists (d : Database) (p : string) : bool :=
  bool_decide (is_Some (posts d !! p)).

Section Controllers.

(** The Prisma schema is not part of the controller file, so how the
    relations of the schema are enforced is left open: [fk] says whether a
    create is refused when the user or the post it refers to does not exist
    (a relational engine refuses, MongoDB does not), and [restrict] whether
    the delete of a post is refused while child rows refer to it. *)
Variable fk : bool.
Variable restrict : bool.

Definition user_findFirst (id : string) : M (option User) :=
  call (λ d, inr (find (λ r, bool_decide (user_id r = id)) (users d), d)).

Definition post_findUnique (id : string) : M (option Post) :=
  call (λ d, inr (posts d !! id, d)).

(** [post.update({ where: { id }, data })]; Prisma throws when no row has
    the id. *)
Definition post_update (id : string) (data : PostCounters) : M unit :=
  call (λ d,
    match posts d !! id with
    | Some p => inr (tt, set_posts (insert id (apply_counters data p)) d)
    | None => inl RecordNotFound
    end).

(** [post.delete({ where: { id } })]; Prisma throws when no row has the id,
    and under [restrict] while a child row still refers to the post. *)
Definition post_delete (id : string) : M unit :=
  call (λ d,
    match posts d !! id with
    | None => inl RecordNotFound
    | Some _ =>
      if restrict && negb (bool_decide
             (filter (λ kv, kv.1.2 = id) (interactions d) = ∅ ∧
              filter (λ c, comment_postId c = id) (comments d) = [] ∧
              filter (λ k, k.2 = id) (favorites d) = ∅))
      then inl ForeignKeyConstraint
      else inr (tt, set_posts (delete id) d)
    end).

Definition userPostInteraction_findUnique (u p : string)
    : M (option UserPostInteraction) :=
  call (λ d, inr (interactions d !! (u, p), d)).

(** The update of the row that [findUnique] returned for the pair. *)
Definition userPostInteraction_update (u p : string) (data : UserPostInteraction)
    : M unit :=
  call (λ d,
    match interactions d !! (u, p) with
    | Some _ => inr (tt, set_interactions (insert (u, p) data) d)
    | None => inl RecordNotFound
    end).

(** A create is refused when the pair already has a row (the compound
    unique key) and, under enforced relations, when the user or the post
    does not exist. *)
Definition userPostInteraction_create (u p : string) (data : UserPostInteraction)
    : M unit :=
  call (λ d,
    match interactions d !! (u, p) with
    | Some _ => inl UniqueConstraint
    | None =>
      if fk && negb (user_exists d u && post_exists d p)
      then inl ForeignKeyConstraint
      else inr (tt, set_interactions (insert (u, p) data) d)
    end).

Definition userPostInteraction_deleteMany (p : string) : M unit :=
  call (λ d, inr (tt, set_interactions (filter (λ kv, kv.1.2 ≠ p)) d)).

Definition comment_create (c : Comment) : M Comment :=
  call (λ d,
    if fk && negb (user_exists d (comment_userId c) && post_exists d (comment_postId c))
    then inl ForeignKeyConstraint
    else inr (c, set_comments (λ l, (l ++ [c])%list) d)).

Definition comment_deleteMany (p : string) : M unit :=
  call (λ d, inr (tt, set_comments (filter (λ c, comment_postId c ≠ p)) d)).

(** [favorite.findUnique]: whether the pair has a Favorite row. *)
Definition favorite_findUnique (u p : string) : M bool :=
  call (λ d, inr (bool_decide ((u, p) ∈ favorites d), d)).

Definition favorite_create (u p : string) : M unit :=
  call (λ d,
    if bool_decide ((u, p) ∈ favorites d) then inl UniqueConstraint
    else if fk && negb (user_exists d u && post_exists d p)
    then inl ForeignKeyConstraint
    else inr (tt, set_favorites (λ s, {[ (u, p) ]} ∪ s) d)).

Definition favorite_delete (u p : string) : M unit :=
  call (λ d,
    if bool_decide ((u, p) ∈ favorites d)
    then inr (tt, set_favorites (λ s, s ∖ {[ (u, p) ]}) d)
    else inl RecordNotFound).

Definition favorite_deleteMany (p : string) : M unit :=
  call (λ d, inr (tt, set_favorites (filter (λ k, k.2 ≠ p)) d)).

(** ** [likePostController] *)

Definition likePostBody {B} (req : UserAuthRequest B) : M Response :=
  let postId := params_id req in
  match truthy (userId req) with
  | None => mret (json 400 (ErrorStr "User ID is required."))
  | Some userId =>
    interaction ← userPostInteraction_findUnique userId postId;
    let respond : M Response :=
      post ← post_findUnique postId;
      mret (json 200 (Reaction "Post liked successful"
                        (likes <$> post) (dislikes <$> post))) in
    match interaction with
    | Some i =>
      if liked i
      then mret (json 400 (ErrorStr "You have already liked this post."))
      else
        _ ← userPostInteraction_update userId postId (mkInteraction true false);
        _ ← post_update postId
              (mkCounters (Some 1) (if disliked i then Some (-1) else None));
        respond
    | None =>
      _ ← userPostInteraction_create userId postId (mkInteraction true false);
      _ ← post_update postId (mkCounters (Some 1) None);
      respond
    end
  end.

Definition likePostController {B} (req : UserAuthRequest B)
    : option nat → Database → Response * Database :=
  tryCatch (likePostBody req) (ErrorStr "Failed to like the post.").

(** ** [dislikePostController] *)

Definition dislikePostBody {B} (req : UserAuthRequest B) : M Response :=
  let postId := params_id req in
  match truthy (userId req) with
  | None => mret (json 400 (ErrorStr "User ID is required."))
  | Some userId =>
    interaction ← userPostInteraction_findUnique userId postId;
    let respond : M Response :=
      post ← post_findUnique postId;
      mret (json 200 (Reaction "Post disliked successful"
                        (likes <$> post) (dislikes <$> post))) in
    match interaction with
    | Some i =>
      if disliked i
      then mret (json 400 (ErrorStr "You have already disliked this post."))
      else
        _ ← userPostInteraction_update userId postId (mkInteraction false true);
        _ ← post_update postId
              (mkCounters (if liked i then Some (-1) else None) (Some 1));
        respond
    | None =>
      _ ← userPostInteraction_create userId postId (mkInteraction false true);
      _ ← post_update postId (mkCounters None (Some 1));
      respond
    end
  end.

Definition dislikePostController {B} (req : UserAuthRequest B)
    : option nat → Database → Response * Database :=
  tryCatch (dislikePostBody req) (ErrorStr "Failed to dislike the post.").


(** ** [createPostController] *)

(** [createPostSchema] lives in [./zodSchema]: its [safeParse] is taken as
    given, returning the validated data or the [(path[0], message)] pairs of
    the validation errors.  [newPostId] is the identifier the storage layer
    generates for a new post. *)
Variable Payload : Type.
Variable safeParse : Payload → list (string * string) + PostData.
Variable newPostId : Database → string.

Definition post_create (data : PostData) (author : string) : M (string * Post) :=
  call (λ d,
    let id := newPostId d in
    match posts d !! id with
    | Some _ => inl UniqueConstraint
    | None =>
      if fk && negb (user_exists d author) then inl ForeignKeyConstraint
      else
        let p := mkPost (data_title data) (data_codeSnippet data)
                        (data_jsCodeSnippet data) (data_description data)
                        (data_tags data) 0 0 author in
        inr ((id, p), set_posts (insert id p) d)
    end).

(** [!user?.verified] *)
Definition not_verified (user : option User) : bool :=
  match user with
  | Some u => negb (verified u)
  | None => true
  end.

Definition createPostBody (req : UserAuthRequest Payload) : M Response :=
  let payload := req_body req in
  match truthy (userId req) with
  | None => mret (json 403 (ErrorMsg "Invalid user"))
  | Some userId =>
    user ← user_findFirst userId;
    if not_verified user
    then mret (json 403 (ErrorMsg "User is not verified!"))
    else
      match safeParse payload with
      | inl errors =>
        let formattedError : gmap string string :=
          foldl (λ o e, <[e.1 := e.2]> o) ∅ errors in
        mret (json 411 (ErrorFields (<["message" := "Invalid Inputs"]> formattedError)))
      | inr data =>
        post ← post_create data userId;
        mret (json 201 (CreatedPost "Successfully created post!" post.1 post.2))
      end
  end.

Definition createPostController (req : UserAuthRequest Payload)
    : option nat → Database → Response * Database :=
  tryCatch (createPostBody req) (ErrorMsg "An unexpected exception occurred!").

(** ** [createCommentController] *)

Definition createCommentBody (req : UserAuthRequest string) : M Response :=
  let postId := params_id req in
  let content := req_body req in
  match truthy (userId req) with
  | None => mret (json 403 (ErrorStr "Invalid user"))
  | Some userId =>
    user ← user_findFirst userId;
    if not_verified user
    then mret (json 403 (ErrorMsg "User is not verified!"))
    else
      comment ← comment_create (mkComment content userId postId);
      mret (json 201 (CreatedComment "Successfully created comment!" comment))
  end.

Definition createCommentController (req : UserAuthRequest string)
    : option nat → Database → Response * Database :=
  tryCatch (createCommentBody req) (ErrorStr "An unexpected exception occurred!").

(** ** [favoritePostController] and [unfavoritePostController] *)

Definition favoritePostBody {B} (req : UserAuthRequest B) : M Response :=
  let postId := params_id req in
  match truthy (userId req) with
  | None => mret (json 400 (ErrorStr "User ID is required."))
  | Some userId =>
    user ← user_findFirst userId;
    if not_verified user
    then mret (json 403 (ErrorStr "User is not verified!"))
    else
      favorite ← favorite_findUnique userId postId;
      if favorite : bool
      then mret (json 400 (ErrorStr "You have already favorited this post."))
      else
        _ ← favorite_create userId postId;
        mret (json 200 (Message "Post favorited successfully"))
  end.

Definition favoritePostController {B} (req : UserAuthRequest B)
    : option nat → Database → Response * Database :=
  tryCatch (favoritePostBody req) (ErrorStr "Failed to favorite the post.").

Definition unfavoritePostBody {B} (req : UserAuthRequest B) : M Response :=
  let postId := params_id req in
  match truthy (userId req) with
  | None => mret (json 400 (ErrorStr "User ID is required."))
  | Some userId =>
    user ← user_findFirst userId;
    if not_verified user
    then mret (json 403 (ErrorStr "User is not verified!"))
    else
      favorite ← favorite_findUnique userId postId;
      if negb favorite
      then mret (json 400 (ErrorStr "You have not favorited this post."))
      else
        _ ← favorite_delete userId postId;
        mret (json 200 (Message "Post unfavorited successfully"))
  end.

Definition unfavoritePostController {B} (req : UserAuthRequest B)
    : option nat → Database → Response * Database :=
  tryCatch (unfavoritePostBody req) (ErrorStr "Failed to unfavorite the post.").

(** ** [getLeaderboardController] *)

(** [user.findMany] with [_count.posts] and the [likes] of the posts whose
    [authorId] is the user. *)
Definition user_findMany_withPosts : M (list UserWithPosts) :=
  call (λ d,
    inr (map (λ u,
           let authored :=
             (map_to_list (filter (λ kv, authorId kv.2 = user_id u) (posts d))).*2 in
           mkUserWithPosts (user_id u) (username u)
                           (Z.of_nat (length authored)) (likes <$> authored))
           (users d), d)).

Definition getLeaderboardBody : M Response :=
  leaderboard ← user_findMany_withPosts;
  mret (json 200 (Leaderboard (computeLeaderboard leaderboard))).

Definition getLeaderboardController
    : option nat → Database → Response * Database :=
  tryCatch getLeaderboardBody (ErrorStr "Failed to fetch leaderboard.").

(** ** [deletePostController] *)

Definition deletePostBody {B} (req : UserAuthRequest B) : M Response :=
  let postId := params_id req in
  match truthy (userId req) with
  | None => mret (json 403 (ErrorMsg "Invalid user"))
  | Some userId =>
    post ← post_findUnique postId;
    match post with
    | None => mret (json 404 (ErrorMsg "Post not found"))
    | Some post =>
      if bool_decide (authorId post ≠ userId)
      then mret (json 403 (ErrorMsg "You are not authorized to delete this post"))
      else
        _ ← userPostInteraction_deleteMany postId;
        _ ← comment_deleteMany postId;
        _ ← favorite_deleteMany postId;
        _ ← post_delete postId;
        mret (json 200 (Message "Post deleted successfully"))
    end
  end.

Definition deletePostController {B} (req : UserAuthRequest B)
    : option nat → Database → Response * Database :=
  tryCatch (deletePostBody req) (ErrorMsg "An unexpected error occurred").

End Controllers.

(** ** Sequences of like and dislike requests *)

Inductive Action := Like | Dislike.

Record Op := mkOp {
  op_action : Action;
  op_req : UserAuthRequest unit;
  op_fault : option nat
}.

Definition step (fk : bool) (o : Op) (d : Database) : Response * Database :=
  match op_action o with
  | Like => likePostController fk (op_req o) (op_fault o) d
  | Dislike => dislikePostController fk (op_req o) (op_fault o) d
  end.

Definition run (fk : bool) (ops : list Op) (d : Database) : Database :=
  foldl (λ d o, (step fk o d).2) d ops.

(** ** Replies of [updatePostController], [getFavoritePostsController] and
    [aiCustomization] *)

(** The columns of a post that a [select] returns, with the [author]
    ([id], [username]) where the query selects it. *)
Record PostView := mkPostView {
  view_id : string;
  view_title : string;
  view_codeSnippet : string;
  view_jsCodeSnippet : string;
  view_description : string;
  view_tags : list string;
  view_author : option (string * string)
}.

Inductive ReplyBody :=
| ReplyError (error : string)                           (* { error: "..." } *)
| UpdatedPost (message : string) (post : PostView)      (* { message, post } *)
| FavoritePosts (favoritePosts : list PostView)         (* { favoritePosts } *)
| CustomCode (customCode : string).                     (* { customCode } *)

Record Reply := reply {
  reply_status : Z;
  reply_body : ReplyBody
}.

Definition tryCatchReply (m : M Reply) (handler : ReplyBody) (fault0 : option nat)
    (d : Database) : Reply * Database :=
  match m (mkSt d fault0) with
  | (inl _, s) => (reply 500 handler, db s)
  | (inr r, s) => (r, db s)
  end.

(** ** [updatePostController] *)

(** [{ title, codeSnippet, jsCodeSnippet, description, tags }] of the request
    body; a field that is [undefined] is left as it is by [post.update]. *)
Record PostPatch := mkPatch {
  patch_title : option string;
  patch_codeSnippet : option string;
  patch_jsCodeSnippet : option string;
  patch_description : option string;
  patch_tags : option (list string)
}.

Definition apply_patch (c : PostPatch) (p : Post) : Post :=
  mkPost (default (title p) (patch_title c))
         (default (codeSnippet p) (patch_codeSnippet c))
         (default (jsCodeSnippet p) (patch_jsCodeSnippet c))
         (default (description p) (patch_description c))
         (default (tags p) (patch_tags c))
         (likes p) (dislikes p) (authorId p).

Definition select_post (id : string) (p : Post) (author : option (string * string))
    : PostView :=
  mkPostView id (title p) (codeSnippet p) (jsCodeSnippet p) (description p) (tags p)
             author.

(** [post.update({ where: { id }, data, select })] on the content columns. *)
Definition post_update_content (id : string) (data : PostPatch) : M PostView :=
  call (λ d,
    match posts d !! id with
    | Some p =>
      let p' := apply_patch data p in
      inr (select_post id p' None, set_posts (insert id p') d)
    | None => inl RecordNotFound
    end).

Definition updatePostBody (req : UserAuthRequest PostPatch) : M Reply :=
  let postId := params_id req in
  match truthy (userId req) with
  | None => mret (reply 403 (ReplyError "Invalid user"))
  | Some userId =>
    user ← user_findFirst userId;
    if not_verified user
    then mret (reply 403 (ReplyError "User is not verified!"))
    else
      post ← post_findUnique postId;
      match post with
      | None => mret (reply 404 (ReplyError "Post not found!"))
      | Some post =>
        if bool_decide (authorId post ≠ userId)
        then mret (reply 403 (ReplyError "You are not authorized to update this post!"))
        else
          updatedPost ← post_update_content postId (req_body req);
          mret (reply 200 (UpdatedPost "Post updated successfully!" updatedPost))
      end
  end.

Definition updatePostController (req : UserAuthRequest PostPatch)
    : option nat → Database → Reply * Database :=
  tryCatchReply (updatePostBody req) (ReplyError "An unexpected exception occurred!").

(** ** [getFavoritePostsController] *)

(** A Favorite row with its included post. *)
Record FavoriteWithPost := mkFavoriteWithPost {
  fav_userId : string;
  fav_postId : string;
  fav_post : PostView
}.

(** The included post of a favorite, with its author.  Both relations are
    required ones: there is no view when the post or its author has no row. *)
Definition include_post (d : Database) (k : string * string) : option FavoriteWithPost :=
  post ← posts d !! k.2;
  author ← find (λ r, bool_decide (user_id r = authorId post)) (users d);
  Some (mkFavoriteWithPost k.1 k.2
          (select_post k.2 post (Some (user_id author, username author)))).

(** [favorite.findMany({ where: { userId }, include: { post } })].  When a
    required relation has no row Prisma reports an inconsistent query
    result; the controller's [catch] does not tell the kinds of error
    apart. *)
Definition favorite_findMany (u : string) : M (list FavoriteWithPost) :=
  call (λ d,
    match mapM (include_post d) (elements (filter (λ k, k.1 = u) (favorites d))) with
    | Some favorites => inr (favorites, d)
    | None => inl RecordNotFound
    end).

Definition getFavoritePostsBody {B} (req : UserAuthRequest B) : M Reply :=
  match truthy (userId req) with
  | None => mret (reply 400 (ReplyError "User ID is required."))
  | Some userId =>
    user ← user_findFirst userId;
    if not_verified user
    then mret (reply 403 (ReplyError "User is not verified!"))
    else
      favorites ← favorite_findMany userId;
      let favoritePosts := map (λ fav, fav_post fav) favorites in
      mret (reply 200 (FavoritePosts favoritePosts))
  end.

Definition getFavoritePostsController {B} (req : UserAuthRequest B)
    : option nat → Database → Reply * Database :=
  tryCatchReply (getFavoritePostsBody req) (ReplyError "Failed to fetch favorite posts.").

(** ** [getCodeSnippetById] and [aiCustomization] *)

(** [post?.codeSnippet || ""] *)
Definition getCodeSnippetById (id : string) : M string :=
  post ← post_findUnique id;
  mret (from_option codeSnippet EmptyString post).

Definition LF : string := String (Ascii.ascii_of_nat 10) EmptyString.

Definition customizationPrompt (originalCodeSnippet query : string) : string :=
  "This is my tailwind css code: " +:+ originalCodeSnippet +:+ LF +:+ LF +:+
  " I want you to modify it and put " +:+ query +:+ LF +:+ LF +:+
  " and also write the code in vs code format like one below other tag and just give me code don't explain it.".

Section Customization.

(** [process.env.API_KEY], and the generative model behind the key: the text
    of its response to a prompt, or nothing when the call throws. *)
Variable API_KEY : option string.
Variable generateContent : string → string → option string.

(** The body is one [try] block: whatever throws in it (a Prisma call, the
    missing key, the model) is answered 500. *)
Definition aiCustomization (req : UserAuthRequest (option string * option string))
    (fault0 : option nat) (d : Database) : Reply * Database :=
  let failed := reply 500 (ReplyError "Failed to customize the code") in
  match truthy (req_body req).1, truthy (req_body req).2 with
  | Some id, Some query =>
    match getCodeSnippetById id (mkSt d fault0) with
    | (inl _, s) => (failed, db s)
    | (inr originalCodeSnippet, s) =>
      match originalCodeSnippet with
      | EmptyString => (reply 404 (ReplyError "Code snippet not found"), db s)
      | _ =>
        match truthy API_KEY with
        | None => (failed, db s)
        | Some key =>
          match generateContent key (customizationPrompt originalCodeSnippet query) with
          | None => (failed, db s)
          | Some text => (reply 200 (CustomCode text), db s)
          end
        end
      end
    end
  | _, _ => (reply 400 (ReplyError "ID and query are required"), d)
  end.

End Customization.

(** * Predicates and sample data of the properties *)

(** ** Invariants *)

(** [preserves I m]: running [m] from a database that satisfies [I] leaves
    a database that satisfies [I], whether [m] returns or throws. *)
Definition preserves {A} (I : Database → Prop) (m : M A) : Prop :=
  ∀ s, I (db s) → I (db (m s).2).

(** [rows_inv Q d]: every interaction row of [d] satisfies [Q] at its key. *)
Definition rows_inv (Q : string * string → UserPostInteraction → Prop)
    (d : Database) : Prop :=
  map_Forall Q (interactions d).

Definition both_flags (r : UserPostInteraction) : bool := liked r && disliked r.

(** No interaction row has [liked] and [disliked] both true. *)
Definition mutual_exclusion (d : Database) : Prop :=
  rows_inv (λ _ r, both_flags r = false) d.

Definition exactly_one (r : UserPostInteraction) : bool := xorb (liked r) (disliked r).

(** The flags stored for the pair before the request; no row counts as
    neither liked nor disliked. *)
Definition was_liked (d : Database) (u p : string) : bool :=
  from_option liked false (interactions d !! (u, p)).

Definition was_disliked (d : Database) (u p : string) : bool :=
  from_option disliked false (interactions d !! (u, p)).

(** The database after a reaction of [u] on [p] was stored: the row and the
    counters of the post. *)
Definition reacted (u p : string) (r : UserPostInteraction) (post' : Post)
    (d : Database) : Database :=
  set_posts (insert p post') (set_interactions (insert (u, p) r) d).

(** The number of rows of post [p] whose [flag] is true. *)
Definition count_flag (flag : UserPostInteraction → bool) (d : Database) (p : string)
    : nat :=
  size (filter (λ kv, kv.1.2 = p ∧ flag kv.2 = true) (interactions d)).

(** Every post's counters equal the numbers of its liked and disliked rows. *)
Definition counters_synced (d : Database) : Prop :=
  map_Forall (λ p post, likes post = Z.of_nat (count_flag liked d p) ∧
                        dislikes post = Z.of_nat (count_flag disliked d p))
             (posts d).

Definition no_fault (o : Op) : Prop := op_fault o = None.

Definition flip_flop (req : UserAuthRequest unit) : list Op :=
  [mkOp Like req None; mkOp Dislike req None; mkOp Like req None].

(** ** Sample databases *)

Definition sample_users : list User :=
  [mkUser "alice" "Alice" true; mkUser "bob" "Bob" true; mkUser "carol" "Carol" false].

Definition sample_post (l dl : Z) : Post :=
  mkPost "Card" "<div class='card'/>" "<div className='card'/>" "A card" ["card"]
         l dl "alice".

(** One post, no reaction yet. *)
Definition db_none : Database :=
  mkDatabase sample_users {[ "p1" := sample_post 0 0 ]} ∅ ∅ [].

(** bob has liked the post. *)
Definition db_liked : Database :=
  mkDatabase sample_users {[ "p1" := sample_post 1 0 ]}
             {[ ("bob", "p1") := mkInteraction true false ]} ∅ [].

(** bob has disliked the post. *)
Definition db_disliked : Database :=
  mkDatabase sample_users {[ "p1" := sample_post 0 1 ]}
             {[ ("bob", "p1") := mkInteraction false true ]} ∅ [].

(** The post with a reaction, a comment and a favorite of bob. *)
Definition db_full : Database :=
  mkDatabase sample_users {[ "p1" := sample_post 1 0 ]}
             {[ ("bob", "p1") := mkInteraction true false ]}
             {[ ("bob", "p1") ]}
             [mkComment "Nice" "bob" "p1"].

Definition request (u p : string) : UserAuthRequest unit := mkReq (Some u) p tt.

(** ** The stages of the delete cascade *)

Definition without_interactions (p : string) (d : Database) : Database :=
  set_interactions (filter (λ kv, kv.1.2 ≠ p)) d.

Definition without_comments (p : string) (d : Database) : Database :=
  set_comments (filter (λ c, comment_postId c ≠ p)) d.

Definition without_favorites (p : string) (d : Database) : Database :=
  set_favorites (filter (λ k, k.2 ≠ p)) d.

(** The database after the first [n] of the three [deleteMany] calls. *)
Definition cascade_stage (n : nat) (p : string) (d : Database) : Database :=
  match n with
  | O => d
  | 1%nat => without_interactions p d
  | 2%nat => without_comments p (without_interactions p d)
  | _ => without_favorites p (without_comments p (without_interactions p d))
  end.

Definition cascade_done (p : string) (d : Database) : Database :=
  set_posts (delete p) (cascade_stage 3 p d).

(** Some row of a child table refers to post [p]. *)
Definition referenced (p : string) (d : Database) : Prop :=
  (∃ u r, interactions d !! (u, p) = Some r) ∨
  (∃ c, c ∈ comments d ∧ comment_postId c = p) ∨
  (∃ u, (u, p) ∈ favorites d).

(** The claim of an atomic cascade: a delete request that is not answered
    200 leaves the database as it was. *)
Definition delete_is_atomic (restrict : bool) (req : UserAuthRequest unit)
    (f : option nat) (d : Database) : Prop :=
  status (deletePostController restrict req f d).1 ≠ 200 →
  (deletePostController restrict req f d).2 = d.

(** ** Leaderboard order and samples *)

(** More likes first. *)
Definition more_likes (a b : UserLikes) : Prop := (totalLikes b ≤ totalLikes a)%Z.

Definition leaderboard_ABC : list UserWithPosts :=
  [mkUserWithPosts "A" "ann" 2 [2; 3];
   mkUserWithPosts "B" "ben" 1 [10];
   mkUserWithPosts "C" "cat" 3 [4; 0; 6]].

(** Three users with posts of 5, 10 and 10 likes in all. *)
Definition db_ABC : Database :=
  mkDatabase
    [mkUser "A" "ann" true; mkUser "B" "ben" true; mkUser "C" "cat" false]
    {[ "a1" := mkPost "a1" "<p/>" "<p/>" "snippet" [] 2 0 "A";
       "a2" := mkPost "a2" "<p/>" "<p/>" "snippet" [] 3 1 "A";
       "b1" := mkPost "b1" "<p/>" "<p/>" "snippet" [] 10 0 "B";
       "c1" := mkPost "c1" "<p/>" "<p/>" "snippet" [] 4 0 "C";
       "c2" := mkPost "c2" "<p/>" "<p/>" "snippet" [] 0 2 "C";
       "c3" := mkPost "c3" "<p/>" "<p/>" "snippet" [] 6 0 "C" ]}
    ∅ ∅ [].

(** ** Sample request sequences *)

(** With a storage fault in the second request. *)
Definition sample_ops : list Op :=
  [mkOp Dislike (request "bob" "p1") None;
   mkOp Like (request "carol" "p1") (Some 2%nat);
   mkOp Like (request "bob" "nowhere") None;
   mkOp Like (request "bob" "p1") None].

(** Without storage fault. *)
Definition sample_flips : list Op :=
  [mkOp Dislike (request "bob" "p1") None;
   mkOp Dislike (request "carol" "p1") None;
   mkOp Like (request "bob" "nowhere") None;
   mkOp Like (request "bob" "p1") None].

(** The claim of C7 for one pair: after like, dislike, like the pair is
    liked, [likes] is one more than at the start and [dislikes] is what it
    was. *)
Definition flip_flop_claim (fk : bool) (req : UserAuthRequest unit) (u : string)
    (d : Database) (post : Post) : Prop :=
  let d' := run fk (flip_flop req) d in
  interactions d' !! (u, params_id req) = Some (mkInteraction true false) ∧
  ∃ post', posts d' !! params_id req = Some post' ∧
           likes post' = (likes post + 1)%Z ∧
           dislikes post' = dislikes post.

(** ** Predicates of the further properties *)

(** [hoare P m Q]: when [m] runs from a database that satisfies [P] and
    returns [a], the database it leaves satisfies [Q a]. *)
Definition hoare {A} (P : Database → Prop) (m : M A) (Q : A → Database → Prop) : Prop :=
  ∀ s a s', P (db s) → m s = (inr a, s') → Q a (db s').

(** Two rows of a post that differ in the counters at most. *)
Definition same_content (a b : Post) : Prop :=
  title a = title b ∧ codeSnippet a = codeSnippet b ∧
  jsCodeSnippet a = jsCodeSnippet b ∧ description a = description b ∧
  tags a = tags b ∧ authorId a = authorId b.

(** What a like or dislike request of caller [u] on post [p] may change
    between [d] and [d']: the counters of [p] and the row of the pair. *)
Definition reaction_frame (u : option string) (p : string) (d d' : Database) : Prop :=
  users d' = users d ∧ favorites d' = favorites d ∧ comments d' = comments d ∧
  (∀ q, option_Forall2 (λ a b, same_content a b ∧ (q ≠ p → a = b))
          (posts d !! q) (posts d' !! q)) ∧
  (∀ v q, (u ≠ Some v ∨ q ≠ p) → interactions d' !! (v, q) = interactions d !! (v, q)).

(** The row a reaction stores. *)
Definition written_row (a : Action) : UserPostInteraction :=
  match a with
  | Like => mkInteraction true false
  | Dislike => mkInteraction false true
  end.

(** What a 200 answer to a reaction of [v] on [p] says about the database it
    leaves. *)
Definition reaction_accepted (a : Action) (v p : string) (r : Response)
    (d' : Database) : Prop :=
  ∃ post message,
    posts d' !! p = Some post ∧
    body r = Reaction message (Some (likes post)) (Some (dislikes post)) ∧
    interactions d' !! (v, p) = Some (written_row a).

(** What a favorite or unfavorite request of caller [u] on post [p] may
    change between [d] and [d']: the Favorite row of the pair. *)
Definition favorite_frame (u : option string) (p : string) (d d' : Database) : Prop :=
  users d' = users d ∧ posts d' = posts d ∧ interactions d' = interactions d ∧
  comments d' = comments d ∧
  (∀ k, (u ≠ Some k.1 ∨ k.2 ≠ p) → k ∈ favorites d' ↔ k ∈ favorites d).

(** The listing [l] shows exactly the posts that [u] has favorited in [d],
    each with the content stored for it. *)
Definition lists_favorites_of (u : string) (d : Database) (l : list PostView) : Prop :=
  (∀ q, (∃ v, v ∈ l ∧ view_id v = q) ↔ (u, q) ∈ favorites d) ∧
  (∀ v, v ∈ l → ∃ post author,
          posts d !! view_id v = Some post ∧
          find (λ r, bool_decide (user_id r = authorId post)) (users d) = Some author ∧
          v = select_post (view_id v) post (Some (user_id author, username author))).

(** What a delete request on post [p] may change between [d] and [d']:
    it adds nothing, and the other posts keep their rows, their interaction
    rows, their favorites and their comments (in order). *)
Definition delete_frame (p : string) (d d' : Database) : Prop :=
  users d' = users d ∧
  (∀ q, q ≠ p → posts d' !! q = posts d !! q) ∧
  (∀ v q, q ≠ p → interactions d' !! (v, q) = interactions d !! (v, q)) ∧
  (∀ v q, q ≠ p → (v, q) ∈ favorites d' ↔ (v, q) ∈ favorites d) ∧
  filter (λ c, comment_postId c ≠ p) (comments d') =
    filter (λ c, comment_postId c ≠ p) (comments d) ∧
  posts d' ⊆ posts d ∧ interactions d' ⊆ interactions d ∧
  favorites d' ⊆ favorites d ∧ comments d' ⊆ comments d.

(** The posts that user [a] authored, and the sum of their likes. *)
Definition authored (d : Database) (a : string) : list Post :=
  (map_to_list (filter (λ kv, authorId kv.2 = a) (posts d))).*2.

Definition author_total (d : Database) (a : string) : Z :=
  foldr Z.add 0%Z (likes <$> authored d a).

(** The entry [e] shows a stored user with the number of the posts they
    authored and the sum of the likes of these posts. *)
Definition entry_of_tables (d : Database) (e : LeaderboardEntry) : Prop :=
  ∃ usr, usr ∈ users d ∧
         entry_userId e = user_id usr ∧ entry_username e = username usr ∧
         entry_postCount e = Z.of_nat (length (authored d (user_id usr))) ∧
         entry_totalLikes e = author_total d (user_id usr).

(** * Properties *)

(** ** Reasoning about the monad *)

Lemma preserves_ret {A} (I : Database → Prop) (a : A) : preserves I (mret a).
Proof. intros s H. exact H. Qed.

Lemma preserves_bind {A B} (I : Database → Prop) (m : M A) (k : A → M B) :
  preserves I m → (∀ a, preserves I (k a)) → preserves I (m ≫= k).
Proof.
  intros Hm Hk s H. unfold mbind, M_bind.
  specialize (Hm s H). destruct (m s) as [[e|a] s'] eqn:E; simpl in *.
  - exact Hm.
  - apply Hk, Hm.
Qed.

Lemma preserves_call {A} (I : Database → Prop)
    (op : Database → PrismaError + (A * Database)) :
  (∀ d a d', I d → op d = inr (a, d') → I d') → preserves I (call op).
Proof.
  intros Hop [d f] H. unfold call. simpl in *.
  destruct f as [[|n]|]; simpl; try exact H;
    destruct (op d) as [e|[a d']] eqn:E; simpl; eauto.
Qed.

Lemma preserves_tryCatch (I : Database → Prop) (m : M Response) h f d :
  preserves I m → I d → I (tryCatch m h f d).2.
Proof.
  intros Hm H. unfold tryCatch. specialize (Hm (mkSt d f) H).
  destruct (m (mkSt d f)) as [[e|r] s']; exact Hm.
Qed.

(** Without a storage fault a call is its operation. *)
Lemma call_nofault {A} (op : Database → PrismaError + (A * Database)) d :
  call op (mkSt d None) =
  match op d with
  | inl e => (inl e, mkSt d None)
  | inr (a, d') => (inr a, mkSt d' None)
  end.
Proof. reflexivity. Qed.

(** ** The rows that like and dislike write *)

Section RowsWritten.

Variable fk : bool.
Variable Q : string * string → UserPostInteraction → Prop.
Hypothesis Q_like : ∀ k, Q k (mkInteraction true false).
Hypothesis Q_dislike : ∀ k, Q k (mkInteraction false true).

Lemma rows_inv_insert d k r :
  Q k r → rows_inv Q d → rows_inv Q (set_interactions (insert k r) d).
Proof.
  intros Hr H k' r'. simpl. rewrite lookup_insert.
  case_decide; [intros [= <-]; by subst | apply H].
Qed.

Lemma rows_inv_set_posts d f : rows_inv Q d → rows_inv Q (set_posts f d).
Proof. intros H. exact H. Qed.

Lemma find_interaction_rows u p :
  preserves (rows_inv Q) (userPostInteraction_findUnique u p).
Proof. apply preserves_call. by intros d a d' H [= _ <-]. Qed.

Lemma find_post_rows p : preserves (rows_inv Q) (post_findUnique p).
Proof. apply preserves_call. by intros d a d' H [= _ <-]. Qed.

Lemma post_update_rows p data : preserves (rows_inv Q) (post_update p data).
Proof.
  apply preserves_call. intros d a d' H.
  destruct (posts d !! p); [intros [= _ <-] | done]. by apply rows_inv_set_posts.
Qed.

Lemma update_interaction_rows u p r :
  Q (u, p) r → preserves (rows_inv Q) (userPostInteraction_update u p r).
Proof.
  intros Hr. apply preserves_call. intros d a d' H.
  destruct (interactions d !! (u, p)); [intros [= _ <-] | done].
  by apply rows_inv_insert.
Qed.

Lemma create_interaction_rows u p r :
  Q (u, p) r → preserves (rows_inv Q) (userPostInteraction_create fk u p r).
Proof.
  intros Hr. apply preserves_call. intros d a d' H.
  destruct (interactions d !! (u, p)); [done |].
  destruct (fk && _); [done | intros [= _ <-]]. by apply rows_inv_insert.
Qed.

Lemma likePostBody_rows {B} (req : UserAuthRequest B) :
  preserves (rows_inv Q) (likePostBody fk req).
Proof.
  unfold likePostBody. destruct (truthy (userId req)) as [u|];
    [| apply preserves_ret].
  apply preserves_bind; [apply find_interaction_rows |].
  intros [i|].
  - destruct (liked i); [apply preserves_ret |].
    repeat (apply preserves_bind; intros);
      auto using update_interaction_rows, post_update_rows, find_post_rows,
                 preserves_ret.
  - repeat (apply preserves_bind; intros);
      auto using create_interaction_rows, post_update_rows, find_post_rows,
                 preserves_ret.
Qed.

Lemma dislikePostBody_rows {B} (req : UserAuthRequest B) :
  preserves (rows_inv Q) (dislikePostBody fk req).
Proof.
  unfold dislikePostBody. destruct (truthy (userId req)) as [u|];
    [| apply preserves_ret].
  apply preserves_bind; [apply find_interaction_rows |].
  intros [i|].
  - destruct (disliked i); [apply preserves_ret |].
    repeat (apply preserves_bind; intros);
      auto using update_interaction_rows, post_update_rows, find_post_rows,
                 preserves_ret.
  - repeat (apply preserves_bind; intros);
      auto using create_interaction_rows, post_update_rows, find_post_rows,
                 preserves_ret.
Qed.

Lemma step_rows o d : rows_inv Q d → rows_inv Q (step fk o d).2.
Proof.
  intros H. unfold step, likePostController, dislikePostController.
  destruct (op_action o); apply preserves_tryCatch;
    auto using likePostBody_rows, dislikePostBody_rows.
Qed.

Lemma run_rows ops d : rows_inv Q d → rows_inv Q (run fk ops d).
Proof.
  revert d. induction ops as [|o ops IH]; intros d H; [exact H |].
  apply IH, step_rows, H.
Qed.

End RowsWritten.

(** ** Mutual exclusion of [liked] and [disliked] *)

(** C1. From a store where no interaction row has both flags true, every
    sequence of like and dislike requests (of any callers, on any posts,
    with or without storage faults) leads to a store where no interaction
    row has both flags true; every single request preserves the invariant. *)
Theorem reaction_mutual_exclusion (fk : bool) (ops : list Op) (d : Database) :
  mutual_exclusion d →
  mutual_exclusion (run fk ops d) ∧
  ∀ o, mutual_exclusion (step fk o (run fk ops d)).2.
Proof.
  intros H.
  assert (Hrun : mutual_exclusion (run fk ops d)) by (by apply run_rows).
  split; [exact Hrun |]. intros o. by apply step_rows.
Qed.

(** ** Exactly one flag on every row written *)

(** C10. After any sequence of like and dislike requests, every interaction
    row either is the row the initial store already had at that key, or has
    exactly one of [liked] and [disliked] true: no write of the two
    controllers produces a row with both flags false (or both true). *)
Theorem written_rows_exactly_one (fk : bool) (ops : list Op) (d : Database) :
  rows_inv (λ k r, interactions d !! k = Some r ∨ exactly_one r = true)
           (run fk ops d).
Proof.
  apply run_rows; try (intros; by right).
  intros k r Hk. by left.
Qed.

(** ** The transitions without storage faults *)

Lemma like_transition fk {B} (req : UserAuthRequest B) u d post :
  truthy (userId req) = Some u →
  posts d !! params_id req = Some post →
  was_liked d u (params_id req) = false →
  (interactions d !! (u, params_id req) = None → fk = true → user_exists d u = true) →
  let post' := apply_counters
    (mkCounters (Some 1) (if was_disliked d u (params_id req) then Some (-1) else None))
    post in
  likePostController fk req None d =
  (json 200 (Reaction "Post liked successful" (Some (likes post')) (Some (dislikes post'))),
   reacted u (params_id req) (mkInteraction true false) post' d).
Proof.
  intros Hu Hp Hl Hfk. unfold was_liked, was_disliked in *.
  unfold likePostController, tryCatch, likePostBody. rewrite Hu.
  unfold mbind, M_bind, userPostInteraction_findUnique, userPostInteraction_update,
    userPostInteraction_create, post_update, post_findUnique.
  rewrite call_nofault.
  destruct (interactions d !! (u, params_id req)) as [i|] eqn:Hi; simpl in Hl |- *.
  - rewrite Hl. rewrite !call_nofault, Hi. simpl. rewrite !call_nofault. simpl.
    rewrite Hp. rewrite !call_nofault. simpl. rewrite lookup_insert_eq. reflexivity.
  - rewrite !call_nofault, Hi.
    assert (fk && negb (user_exists d u && post_exists d (params_id req)) = false) as ->.
    { destruct fk; [|done]. rewrite Hfk by done. unfold post_exists.
      by rewrite Hp. }
    simpl. rewrite !call_nofault. simpl.
    rewrite Hp. rewrite !call_nofault. simpl. rewrite lookup_insert_eq. reflexivity.
Qed.

Lemma dislike_transition fk {B} (req : UserAuthRequest B) u d post :
  truthy (userId req) = Some u →
  posts d !! params_id req = Some post →
  was_disliked d u (params_id req) = false →
  (interactions d !! (u, params_id req) = None → fk = true → user_exists d u = true) →
  let post' := apply_counters
    (mkCounters (if was_liked d u (params_id req) then Some (-1) else None) (Some 1))
    post in
  dislikePostController fk req None d =
  (json 200 (Reaction "Post disliked successful" (Some (likes post')) (Some (dislikes post'))),
   reacted u (params_id req) (mkInteraction false true) post' d).
Proof.
  intros Hu Hp Hl Hfk. unfold was_liked, was_disliked in *.
  unfold dislikePostController, tryCatch, dislikePostBody. rewrite Hu.
  unfold mbind, M_bind, userPostInteraction_findUnique, userPostInteraction_update,
    userPostInteraction_create, post_update, post_findUnique.
  rewrite call_nofault.
  destruct (interactions d !! (u, params_id req)) as [i|] eqn:Hi; simpl in Hl |- *.
  - rewrite Hl. rewrite !call_nofault, Hi. simpl. rewrite !call_nofault. simpl.
    rewrite Hp. rewrite !call_nofault. simpl. rewrite lookup_insert_eq. reflexivity.
  - rewrite !call_nofault, Hi.
    assert (fk && negb (user_exists d u && post_exists d (params_id req)) = false) as ->.
    { destruct fk; [|done]. rewrite Hfk by done. unfold post_exists.
      by rewrite Hp. }
    simpl. rewrite !call_nofault. simpl.
    rewrite Hp. rewrite !call_nofault. simpl. rewrite lookup_insert_eq. reflexivity.
Qed.

(** ** Repeating a reaction *)

Lemma like_rejected fk {B} (req : UserAuthRequest B) u f d r :
  truthy (userId req) = Some u →
  interactions d !! (u, params_id req) = Some r →
  f ≠ Some O →
  liked r = true →
  likePostController fk req f d =
  (json 400 (ErrorStr "You have already liked this post."), d).
Proof.
  intros Hu Hr Hf Hflag. unfold likePostController, tryCatch, likePostBody.
  rewrite Hu. unfold mbind, M_bind, userPostInteraction_findUnique, call; simpl.
  destruct f as [[|n]|]; try done; simpl; by rewrite Hr, Hflag.
Qed.

Lemma dislike_rejected fk {B} (req : UserAuthRequest B) u f d r :
  truthy (userId req) = Some u →
  interactions d !! (u, params_id req) = Some r →
  f ≠ Some O →
  disliked r = true →
  dislikePostController fk req f d =
  (json 400 (ErrorStr "You have already disliked this post."), d).
Proof.
  intros Hu Hr Hf Hflag. unfold dislikePostController, tryCatch, dislikePostBody.
  rewrite Hu. unfold mbind, M_bind, userPostInteraction_findUnique, call; simpl.
  destruct f as [[|n]|]; try done; simpl; by rewrite Hr, Hflag.
Qed.

(** C4. When the stored row of the pair has [liked] true, a like request is
    answered 400 "You have already liked this post." and the database is
    left exactly as it was (interaction rows and post counters included);
    when the row has [disliked] true, a dislike request is answered 400
    "You have already disliked this post." and nothing changes.  This holds
    whenever the storage layer answers the one lookup the request makes. *)
Theorem repeated_reaction_rejected (fk : bool) {B} (req : UserAuthRequest B)
    (u : string) (f : option nat) (d : Database) (r : UserPostInteraction) :
  truthy (userId req) = Some u →
  interactions d !! (u, params_id req) = Some r →
  f ≠ Some O →
  (liked r = true →
   likePostController fk req f d =
   (json 400 (ErrorStr "You have already liked this post."), d)) ∧
  (disliked r = true →
   dislikePostController fk req f d =
   (json 400 (ErrorStr "You have already disliked this post."), d)).
Proof.
  intros Hu Hr Hf. split; intros Hflag.
  - by eapply like_rejected.
  - by eapply dislike_rejected.
Qed.

(** ** The counters as a cache of the interaction rows *)

Lemma count_flag_set_posts flag f d p :
  count_flag flag (set_posts f d) p = count_flag flag d p.
Proof. reflexivity. Qed.

Lemma count_flag_insert_other flag d u p r q :
  p ≠ q →
  count_flag flag (set_interactions (insert (u, p) r) d) q = count_flag flag d q.
Proof.
  intros Hpq. unfold count_flag. simpl.
  rewrite map_filter_insert, decide_False by (simpl; intros [? _]; done).
  rewrite map_filter_delete_not; [done |]. simpl. intros y _ [? _]. done.
Qed.

Lemma count_flag_insert_same flag d u p r :
  Z.of_nat (count_flag flag (set_interactions (insert (u, p) r) d) p) =
  Z.of_nat (count_flag flag d p)
  - Z.b2z (from_option flag false (interactions d !! (u, p)))
  + Z.b2z (flag r).
Proof.
  unfold count_flag. simpl.
  set (P := λ kv : string * string * UserPostInteraction,
              kv.1.2 = p ∧ flag kv.2 = true).
  set (m := interactions d).
  assert (Hlk : filter P m !! (u, p) =
                match m !! (u, p) with
                | Some x => if flag x then Some x else None
                | None => None
                end).
  { destruct (m !! (u, p)) as [x|] eqn:Hx.
    - destruct (flag x) eqn:Hf.
      + apply map_lookup_filter_Some. by split.
      + apply map_lookup_filter_None. right. intros y Hy [_ Hfy].
        rewrite Hx in Hy. injection Hy as <-. simpl in Hfy. congruence.
    - apply map_lookup_filter_None. by left. }
  rewrite map_filter_insert. destruct (decide (P (u, p, r))) as [[_ Hr]|Hr].
  - simpl in Hr. rewrite Hr, map_size_insert, Hlk.
    destruct (m !! (u, p)) as [x|]; simpl; [destruct (flag x)|]; simpl; lia.
  - assert (flag r = false) as ->.
    { destruct (flag r) eqn:E; [|done]. destruct Hr. by split. }
    rewrite map_filter_delete, map_size_delete.
    pose proof (map_size_ne_0_lookup_2 (filter P m) (u, p)) as Hne.
    rewrite Hlk in Hne |- *.
    destruct (m !! (u, p)) as [x|]; simpl; [destruct (flag x)|]; simpl; try lia.
    specialize (Hne (mk_is_Some _ _ eq_refl)). lia.
Qed.

(** What a request without storage fault does to the database: nothing, or
    the row alone when the post does not exist, or the row and the
    counters. *)
Lemma like_nofault_cases fk {B} (req : UserAuthRequest B) d :
  let p := params_id req in
  let d' := (likePostController fk req None d).2 in
  d' = d ∨
  (∃ u, truthy (userId req) = Some u ∧ posts d !! p = None ∧
        d' = set_interactions (insert (u, p) (mkInteraction true false)) d) ∨
  (∃ u post, truthy (userId req) = Some u ∧ posts d !! p = Some post ∧
        was_liked d u p = false ∧
        d' = reacted u p (mkInteraction true false)
               (apply_counters
                  (mkCounters (Some 1) (if was_disliked d u p then Some (-1) else None))
                  post) d).
Proof.
  intros p d'. subst d'.
  destruct (truthy (userId req)) as [u|] eqn:Hu.
  2: { left. unfold likePostController, tryCatch, likePostBody. by rewrite Hu. }
  destruct (interactions d !! (u, p)) as [r|] eqn:Hr.
  - destruct (liked r) eqn:Hl.
    { left. by erewrite like_rejected. }
    destruct (posts d !! p) as [post|] eqn:Hp.
    + right; right. exists u, post. repeat split; try done.
      { unfold was_liked. fold p. by rewrite Hr. }
      rewrite (like_transition fk req u d post); try done.
      * unfold was_liked. fold p. by rewrite Hr.
      * fold p. congruence.
    + right; left. exists u. repeat split; try done.
      unfold likePostController, tryCatch, likePostBody. rewrite Hu. fold p.
      unfold mbind, M_bind, userPostInteraction_findUnique,
        userPostInteraction_update, post_update.
      rewrite call_nofault. simpl. rewrite Hr. simpl. rewrite Hl.
      rewrite !call_nofault, Hr. simpl. rewrite !call_nofault. simpl.
      by rewrite Hp.
  - destruct (posts d !! p) as [post|] eqn:Hp.
    + destruct (decide (fk = true ∧ user_exists d u = false)) as [[-> Hx]|Hfk].
      * left. unfold likePostController, tryCatch, likePostBody. rewrite Hu. fold p.
        unfold mbind, M_bind, userPostInteraction_findUnique,
          userPostInteraction_create.
        rewrite call_nofault. simpl. rewrite Hr. simpl.
        rewrite !call_nofault, Hr, Hx. done.
      * right; right. exists u, post. repeat split; try done.
        { unfold was_liked. fold p. by rewrite Hr. }
        rewrite (like_transition fk req u d post); try done.
        -- unfold was_liked. fold p. by rewrite Hr.
        -- intros _ ->. destruct (user_exists d u); [done|]. by destruct Hfk.
    + unfold likePostController, tryCatch, likePostBody. rewrite Hu. fold p.
      unfold mbind, M_bind, userPostInteraction_findUnique,
        userPostInteraction_create, post_update.
      rewrite call_nofault. simpl. rewrite Hr. simpl. rewrite !call_nofault, Hr.
      assert (post_exists d p = false) as -> by (unfold post_exists; by rewrite Hp).
      rewrite andb_false_r. destruct fk; simpl.
      * by left.
      * right; left. exists u. repeat split; try done.
        rewrite !call_nofault. simpl. by rewrite Hp.
Qed.

Lemma dislike_nofault_cases fk {B} (req : UserAuthRequest B) d :
  let p := params_id req in
  let d' := (dislikePostController fk req None d).2 in
  d' = d ∨
  (∃ u, truthy (userId req) = Some u ∧ posts d !! p = None ∧
        d' = set_interactions (insert (u, p) (mkInteraction false true)) d) ∨
  (∃ u post, truthy (userId req) = Some u ∧ posts d !! p = Some post ∧
        was_disliked d u p = false ∧
        d' = reacted u p (mkInteraction false true)
               (apply_counters
                  (mkCounters (if was_liked d u p then Some (-1) else None) (Some 1))
                  post) d).
Proof.
  intros p d'. subst d'.
  destruct (truthy (userId req)) as [u|] eqn:Hu.
  2: { left. unfold dislikePostController, tryCatch, dislikePostBody. by rewrite Hu. }
  destruct (interactions d !! (u, p)) as [r|] eqn:Hr.
  - destruct (disliked r) eqn:Hl.
    { left. by erewrite dislike_rejected. }
    destruct (posts d !! p) as [post|] eqn:Hp.
    + right; right. exists u, post. repeat split; try done.
      { unfold was_disliked. fold p. by rewrite Hr. }
      rewrite (dislike_transition fk req u d post); try done.
      * unfold was_disliked. fold p. by rewrite Hr.
      * fold p. congruence.
    + right; left. exists u. repeat split; try done.
      unfold dislikePostController, tryCatch, dislikePostBody. rewrite Hu. fold p.
      unfold mbind, M_bind, userPostInteraction_findUnique,
        userPostInteraction_update, post_update.
      rewrite call_nofault. simpl. rewrite Hr. simpl. rewrite Hl.
      rewrite !call_nofault, Hr. simpl. rewrite !call_nofault. simpl.
      by rewrite Hp.
  - destruct (posts d !! p) as [post|] eqn:Hp.
    + destruct (decide (fk = true ∧ user_exists d u = false)) as [[-> Hx]|Hfk].
      * left. unfold dislikePostController, tryCatch, dislikePostBody. rewrite Hu. fold p.
        unfold mbind, M_bind, userPostInteraction_findUnique,
          userPostInteraction_create.
        rewrite call_nofault. simpl. rewrite Hr. simpl.
        rewrite !call_nofault, Hr, Hx. done.
      * right; right. exists u, post. repeat split; try done.
        { unfold was_disliked. fold p. by rewrite Hr. }
        rewrite (dislike_transition fk req u d post); try done.
        -- unfold was_disliked. fold p. by rewrite Hr.
        -- intros _ ->. destruct (user_exists d u); [done|]. by destruct Hfk.
    + unfold dislikePostController, tryCatch, dislikePostBody. rewrite Hu. fold p.
      unfold mbind, M_bind, userPostInteraction_findUnique,
        userPostInteraction_create, post_update.
      rewrite call_nofault. simpl. rewrite Hr. simpl. rewrite !call_nofault, Hr.
      assert (post_exists d p = false) as -> by (unfold post_exists; by rewrite Hp).
      rewrite andb_false_r. destruct fk; simpl.
      * by left.
      * right; left. exists u. repeat split; try done.
        rewrite !call_nofault. simpl. by rewrite Hp.
Qed.

Lemma synced_insert_no_post d u p r :
  posts d !! p = None →
  counters_synced d →
  counters_synced (set_interactions (insert (u, p) r) d).
Proof.
  intros Hp H q post Hq. simpl in Hq.
  assert (p ≠ q) by congruence.
  rewrite !count_flag_insert_other by done. by apply H.
Qed.

Lemma synced_reacted d u p r post post' :
  posts d !! p = Some post →
  counters_synced d →
  likes post' = likes post - Z.b2z (was_liked d u p) + Z.b2z (liked r) →
  dislikes post' = dislikes post - Z.b2z (was_disliked d u p) + Z.b2z (disliked r) →
  counters_synced (reacted u p r post' d).
Proof.
  intros Hp H Hl Hd q post'' Hq. unfold reacted in *. simpl in Hq.
  rewrite !count_flag_set_posts. rewrite lookup_insert in Hq.
  case_decide as Hpq.
  - injection Hq as <-. subst q. rewrite !count_flag_insert_same.
    destruct (H p post Hp) as [<- <-]. unfold was_liked, was_disliked in *. lia.
  - rewrite !count_flag_insert_other by done. by apply H.
Qed.

Lemma step_synced fk o d :
  no_fault o → counters_synced d → counters_synced (step fk o d).2.
Proof.
  unfold no_fault, step. intros -> H. destruct (op_action o).
  - destruct (like_nofault_cases fk (op_req o) d)
      as [->|[(u & _ & Hp & ->)|(u & post & _ & Hp & Hl & ->)]]; [done | |].
    + by apply synced_insert_no_post.
    + eapply synced_reacted; [done | done | |]; rewrite ?Hl; simpl;
        destruct (was_disliked d u (params_id (op_req o))); simpl; lia.
  - destruct (dislike_nofault_cases fk (op_req o) d)
      as [->|[(u & _ & Hp & ->)|(u & post & _ & Hp & Hl & ->)]]; [done | |].
    + by apply synced_insert_no_post.
    + eapply synced_reacted; [done | done | |]; rewrite ?Hl; simpl;
        destruct (was_liked d u (params_id (op_req o))); simpl; lia.
Qed.

Lemma run_synced fk ops d :
  Forall no_fault ops → counters_synced d → counters_synced (run fk ops d).
Proof.
  intros Hops. revert d. induction Hops as [|o ops Ho _ IH]; intros d H; [done |].
  apply IH. by apply step_synced.
Qed.

Lemma synced_nonneg d p post :
  counters_synced d → posts d !! p = Some post → (0 ≤ likes post)%Z ∧ (0 ≤ dislikes post)%Z.
Proof. intros H Hp. destruct (H p post Hp) as [-> ->]. lia. Qed.

(** What a successful like or dislike leaves for the pair: the row, and the
    counters of the post relative to those before the request. *)
Lemma like_effect fk {B} (req : UserAuthRequest B) u d post :
  truthy (userId req) = Some u →
  posts d !! params_id req = Some post →
  was_liked d u (params_id req) = false →
  (interactions d !! (u, params_id req) = None → fk = true → user_exists d u = true) →
  let d' := (likePostController fk req None d).2 in
  interactions d' !! (u, params_id req) = Some (mkInteraction true false) ∧
  users d' = users d ∧
  ∃ post', posts d' !! params_id req = Some post' ∧
           likes post' = likes post + 1 ∧
           dislikes post' = dislikes post - Z.b2z (was_disliked d u (params_id req)).
Proof.
  intros Hu Hp Hl Hfk. simpl. rewrite (like_transition fk req u d post) by done.
  unfold reacted. simpl. rewrite !lookup_insert_eq. repeat split.
  eexists. split; [done |]. simpl.
  destruct (was_disliked d u (params_id req)); simpl; lia.
Qed.

Lemma dislike_effect fk {B} (req : UserAuthRequest B) u d post :
  truthy (userId req) = Some u →
  posts d !! params_id req = Some post →
  was_disliked d u (params_id req) = false →
  (interactions d !! (u, params_id req) = None → fk = true → user_exists d u = true) →
  let d' := (dislikePostController fk req None d).2 in
  interactions d' !! (u, params_id req) = Some (mkInteraction false true) ∧
  users d' = users d ∧
  ∃ post', posts d' !! params_id req = Some post' ∧
           likes post' = likes post - Z.b2z (was_liked d u (params_id req)) ∧
           dislikes post' = dislikes post + 1.
Proof.
  intros Hu Hp Hl Hfk. simpl. rewrite (dislike_transition fk req u d post) by done.
  unfold reacted. simpl. rewrite !lookup_insert_eq. repeat split.
  eexists. split; [done |]. simpl.
  destruct (was_liked d u (params_id req)); simpl; lia.
Qed.

(** ** LIKED to DISLIKED, and the guarded decrement *)

(** C3. For a caller with a user id and an existing post, without storage
    fault:
    - when the stored row is liked and not disliked, a dislike request is
      answered 200 with the counters [likes - 1] and [dislikes + 1], the row
      becomes [liked = false, disliked = true], and the post's counters are
      changed by exactly these two deltas;
    - a like that is accepted adds 1 to [likes] and takes 1 from [dislikes]
      exactly when the stored row had [disliked] true, and a dislike that is
      accepted adds 1 to [dislikes] and takes 1 from [likes] exactly when the
      stored row had [liked] true;
    - so when the counters of every post equal the numbers of its liked and
      disliked rows, they still do after any sequence of requests, and no
      counter is negative. *)
Theorem dislike_from_liked_and_guarded_decrement (fk : bool) {B}
    (req : UserAuthRequest B) (u : string) (d : Database) (post : Post) :
  truthy (userId req) = Some u →
  posts d !! params_id req = Some post →
  let p := params_id req in
  let fk_ok := interactions d !! (u, p) = None → fk = true → user_exists d u = true in
  (interactions d !! (u, p) = Some (mkInteraction true false) →
   dislikePostController fk req None d =
   (json 200 (Reaction "Post disliked successful"
                (Some (likes post - 1)) (Some (dislikes post + 1))),
    reacted u p (mkInteraction false true)
      (apply_counters (mkCounters (Some (-1)) (Some 1)) post) d)) ∧
  (was_liked d u p = false → fk_ok →
   ∃ post', posts (likePostController fk req None d).2 !! p = Some post' ∧
            likes post' = likes post + 1 ∧
            dislikes post' = dislikes post - Z.b2z (was_disliked d u p)) ∧
  (was_disliked d u p = false → fk_ok →
   ∃ post', posts (dislikePostController fk req None d).2 !! p = Some post' ∧
            likes post' = likes post - Z.b2z (was_liked d u p) ∧
            dislikes post' = dislikes post + 1) ∧
  (counters_synced d →
   ∀ ops, Forall no_fault ops →
     counters_synced (run fk ops d) ∧
     ∀ q post', posts (run fk ops d) !! q = Some post' →
                (0 ≤ likes post')%Z ∧ (0 ≤ dislikes post')%Z).
Proof.
  intros Hu Hp p fk_ok. subst p fk_ok. split; [| split; [| split]].
  - intros Hr.
    rewrite (dislike_transition fk req u d post); try done;
      unfold was_liked, was_disliked; rewrite Hr; done.
  - intros Hl Hfk. by destruct (like_effect fk req u d post) as (_ & _ & H).
  - intros Hl Hfk. by destruct (dislike_effect fk req u d post) as (_ & _ & H).
  - intros Hs ops Hops.
    assert (Hrun : counters_synced (run fk ops d)) by (by apply run_synced).
    split; [exact Hrun |]. intros q post' Hq. by eapply synced_nonneg.
Qed.

(** ** like, dislike, like *)

Lemma was_liked_row d u p r :
  interactions d !! (u, p) = Some r → was_liked d u p = liked r.
Proof. unfold was_liked. by intros ->. Qed.

Lemma was_disliked_row d u p r :
  interactions d !! (u, p) = Some r → was_disliked d u p = disliked r.
Proof. unfold was_disliked. by intros ->. Qed.

(** C7, as the code has it.  For a caller with a user id and an existing
    post, from a stored state that does not have both flags true and without
    storage fault, like then dislike then like leaves the pair liked and not
    disliked, with [likes] one more than at the start unless the pair was
    already liked (then unchanged), and [dislikes] unchanged unless the pair
    was disliked at the start (then one less).  From no row: [likes + 1] and
    [dislikes] unchanged. *)
Theorem like_dislike_like (fk : bool) (req : UserAuthRequest unit) (u : string)
    (d : Database) (post : Post) :
  truthy (userId req) = Some u →
  posts d !! params_id req = Some post →
  (interactions d !! (u, params_id req) = None → fk = true → user_exists d u = true) →
  was_liked d u (params_id req) && was_disliked d u (params_id req) = false →
  let p := params_id req in
  let d' := run fk (flip_flop req) d in
  interactions d' !! (u, p) = Some (mkInteraction true false) ∧
  ∃ post', posts d' !! p = Some post' ∧
           likes post' = likes post + 1 - Z.b2z (was_liked d u p) ∧
           dislikes post' = dislikes post - Z.b2z (was_disliked d u p).
Proof.
  intros Hu Hp Hfk Hboth p d'. subst p d'.
  unfold flip_flop, run, step. simpl.
  set (p := params_id req) in *.
  assert (Hfrom : ∀ d1 post1,
    posts d1 !! p = Some post1 →
    was_disliked d1 u p = false →
    (interactions d1 !! (u, p) = None → fk = true → user_exists d1 u = true) →
    let d3 := (likePostController fk req None
                 (dislikePostController fk req None d1).2).2 in
    interactions d3 !! (u, p) = Some (mkInteraction true false) ∧
    ∃ post', posts d3 !! p = Some post' ∧
             likes post' = likes post1 - Z.b2z (was_liked d1 u p) + 1 ∧
             dislikes post' = dislikes post1).
  { intros d1 post1 Hp1 Hd1 Hfk1.
    destruct (dislike_effect fk req u d1 post1 Hu Hp1 Hd1 Hfk1)
      as (Hr2 & _ & post2 & Hp2 & Hl2 & Hd2). fold p in Hr2, Hp2, Hl2.
    set (d2 := (dislikePostController fk req None d1).2) in *.
    destruct (like_effect fk req u d2 post2 Hu Hp2) as (Hr3 & _ & post3 & Hp3 & Hl3 & Hd3).
    - fold p. by rewrite (was_liked_row _ _ _ _ Hr2).
    - fold p. by rewrite Hr2.
    - fold p in Hr3, Hp3, Hd3. rewrite (was_disliked_row _ _ _ _ Hr2) in Hd3.
      simpl in *. split; [done |]. exists post3. split; [done |]. lia. }
  destruct (was_liked d u p) eqn:Hl; simpl in Hboth.
  - destruct (interactions d !! (u, p)) as [r|] eqn:Hr.
    2: { unfold was_liked in Hl. by rewrite Hr in Hl. }
    rewrite (like_rejected fk req u None d r Hu Hr) by
      (try done; by rewrite <- (was_liked_row _ _ _ _ Hr)).
    simpl. destruct (Hfrom d post Hp Hboth) as (H1 & post' & H2 & H3 & H4).
    { by rewrite Hr. }
    split; [done |]. exists post'. split; [done |]. rewrite Hboth, Hl in *.
    simpl in *. lia.
  - destruct (like_effect fk req u d post Hu Hp Hl Hfk)
      as (Hr1 & _ & post1 & Hp1 & Hl1 & Hd1). fold p in Hr1, Hp1, Hd1.
    set (d1 := (likePostController fk req None d).2) in *.
    destruct (Hfrom d1 post1 Hp1) as (H1 & post' & H2 & H3 & H4).
    + by rewrite (was_disliked_row _ _ _ _ Hr1).
    + by rewrite Hr1.
    + split; [done |]. exists post'. split; [done |].
      rewrite (was_liked_row _ _ _ _ Hr1) in H3. simpl in *. lia.
Qed.

(** ** Favorites *)

Lemma user_exists_find d u usr :
  find (λ r, bool_decide (user_id r = u)) (users d) = Some usr →
  user_exists d u = true.
Proof.
  intros H. unfold user_exists. apply existsb_exists.
  exists usr. split; [by eapply find_some | by eapply (find_some _ _ H)].
Qed.

Section Favorites.

Variable fk : bool.
Context {B : Type}.
Variable req : UserAuthRequest B.
Variable u : string.
Variable usr : User.
Variable d : Database.
Hypothesis Hu : truthy (userId req) = Some u.
Hypothesis Husr : find (λ r, bool_decide (user_id r = u)) (users d) = Some usr.
Hypothesis Hverified : verified usr = true.

Lemma favorite_created :
  (fk = true → post_exists d (params_id req) = true) →
  (u, params_id req) ∉ favorites d →
  favoritePostController fk req None d =
  (json 200 (Message "Post favorited successfully"),
   set_favorites (λ s, {[ (u, params_id req) ]} ∪ s) d).
Proof.
  intros Hp Hf. unfold favoritePostController, tryCatch, favoritePostBody.
  rewrite Hu. unfold mbind, M_bind, user_findFirst, favorite_findUnique, favorite_create.
  repeat (progress (rewrite ?call_nofault, ?Husr, ?Hverified,
                      ?(bool_decide_eq_false_2 _ Hf); simpl)).
  rewrite (user_exists_find _ _ _ Husr).
  destruct fk; [rewrite Hp by done |]; done.
Qed.

Lemma favorite_rejected :
  (u, params_id req) ∈ favorites d →
  favoritePostController fk req None d =
  (json 400 (ErrorStr "You have already favorited this post."), d).
Proof.
  intros Hf. unfold favoritePostController, tryCatch, favoritePostBody.
  rewrite Hu. unfold mbind, M_bind, user_findFirst, favorite_findUnique.
  by repeat (progress (rewrite ?call_nofault, ?Husr, ?Hverified,
                         ?(bool_decide_eq_true_2 _ Hf); simpl)).
Qed.

Lemma unfavorite_deleted :
  (u, params_id req) ∈ favorites d →
  unfavoritePostController req None d =
  (json 200 (Message "Post unfavorited successfully"),
   set_favorites (λ s, s ∖ {[ (u, params_id req) ]}) d).
Proof.
  intros Hf. unfold unfavoritePostController, tryCatch, unfavoritePostBody.
  rewrite Hu. unfold mbind, M_bind, user_findFirst, favorite_findUnique, favorite_delete.
  by repeat (progress (rewrite ?call_nofault, ?Husr, ?Hverified,
                         ?(bool_decide_eq_true_2 _ Hf); simpl)).
Qed.

Lemma unfavorite_rejected :
  (u, params_id req) ∉ favorites d →
  unfavoritePostController req None d =
  (json 400 (ErrorStr "You have not favorited this post."), d).
Proof.
  intros Hf. unfold unfavoritePostController, tryCatch, unfavoritePostBody.
  rewrite Hu. unfold mbind, M_bind, user_findFirst, favorite_findUnique.
  by repeat (progress (rewrite ?call_nofault, ?Husr, ?Hverified,
                         ?(bool_decide_eq_false_2 _ Hf); simpl)).
Qed.

End Favorites.

(** C8. For a verified caller and an existing post, without storage fault:
    favorite with no Favorite row creates the row and answers 200; favorite
    with the row present answers 400 "You have already favorited this post."
    and changes nothing; unfavorite with the row present deletes it and
    answers 200; unfavorite with no row answers 400 "You have not favorited
    this post." and changes nothing.  Hence, from no row, favorite,
    unfavorite, favorite answer 200 each, and one more favorite is rejected. *)
Theorem favorite_transitions (fk : bool) {B} (req : UserAuthRequest B) (u : string)
    (usr : User) (d : Database) :
  truthy (userId req) = Some u →
  find (λ r, bool_decide (user_id r = u)) (users d) = Some usr →
  verified usr = true →
  (fk = true → post_exists d (params_id req) = true) →
  let k := (u, params_id req) in
  let favorite := favoritePostController fk req None in
  let unfavorite := unfavoritePostController req None in
  (k ∉ favorites d →
   favorite d = (json 200 (Message "Post favorited successfully"),
                 set_favorites (λ s, {[ k ]} ∪ s) d)) ∧
  (k ∈ favorites d →
   favorite d = (json 400 (ErrorStr "You have already favorited this post."), d)) ∧
  (k ∈ favorites d →
   unfavorite d = (json 200 (Message "Post unfavorited successfully"),
                   set_favorites (λ s, s ∖ {[ k ]}) d)) ∧
  (k ∉ favorites d →
   unfavorite d = (json 400 (ErrorStr "You have not favorited this post."), d)) ∧
  (k ∉ favorites d →
   let r1 := favorite d in
   let r2 := unfavorite r1.2 in
   let r3 := favorite r2.2 in
   let r4 := favorite r3.2 in
   status r1.1 = 200 ∧ status r2.1 = 200 ∧ status r3.1 = 200 ∧
   k ∈ favorites r3.2 ∧
   r4 = (json 400 (ErrorStr "You have already favorited this post."), r3.2)).
Proof.
  intros Hu Husr Hv Hp k favorite unfavorite. subst k favorite unfavorite.
  split; [| split; [| split; [| split]]].
  - intros Hf. by eapply favorite_created.
  - intros Hf. by eapply favorite_rejected.
  - intros Hf. by eapply unfavorite_deleted.
  - intros Hf. by eapply unfavorite_rejected.
  - intros Hf. simpl.
    rewrite (favorite_created fk req u usr d) by done. simpl.
    rewrite (unfavorite_deleted req u usr)
      by (try done; simpl; apply elem_of_union_l, elem_of_singleton; done).
    simpl.
    rewrite (favorite_created fk req u usr)
      by (try done; simpl; rewrite elem_of_difference, elem_of_singleton; tauto).
    simpl.
    rewrite (favorite_rejected fk req u usr)
      by (try done; simpl; apply elem_of_union_l, elem_of_singleton; done).
    repeat split; try done. simpl. apply elem_of_union_l, elem_of_singleton. done.
Qed.

(** ** The verification gate *)

(** The controllers that look the caller up answer 403 to an unverified
    caller and write nothing. *)
Lemma favorite_unverified fk {B} (req : UserAuthRequest B) u f d :
  truthy (userId req) = Some u →
  not_verified (find (λ r, bool_decide (user_id r = u)) (users d)) = true →
  f ≠ Some O →
  favoritePostController fk req f d = (json 403 (ErrorStr "User is not verified!"), d).
Proof.
  intros Hu Hv Hf. unfold favoritePostController, tryCatch, favoritePostBody.
  rewrite Hu. unfold mbind, M_bind, user_findFirst, call. simpl.
  destruct f as [[|n]|]; try done; simpl; by rewrite Hv.
Qed.

Lemma unfavorite_unverified {B} (req : UserAuthRequest B) u f d :
  truthy (userId req) = Some u →
  not_verified (find (λ r, bool_decide (user_id r = u)) (users d)) = true →
  f ≠ Some O →
  unfavoritePostController req f d = (json 403 (ErrorStr "User is not verified!"), d).
Proof.
  intros Hu Hv Hf. unfold unfavoritePostController, tryCatch, unfavoritePostBody.
  rewrite Hu. unfold mbind, M_bind, user_findFirst, call. simpl.
  destruct f as [[|n]|]; try done; simpl; by rewrite Hv.
Qed.

Lemma createComment_unverified fk (req : UserAuthRequest string) u f d :
  truthy (userId req) = Some u →
  not_verified (find (λ r, bool_decide (user_id r = u)) (users d)) = true →
  f ≠ Some O →
  createCommentController fk req f d = (json 403 (ErrorMsg "User is not verified!"), d).
Proof.
  intros Hu Hv Hf. unfold createCommentController, tryCatch, createCommentBody.
  rewrite Hu. unfold mbind, M_bind, user_findFirst, call. simpl.
  destruct f as [[|n]|]; try done; simpl; by rewrite Hv.
Qed.

Lemma createPost_unverified fk {Payload} safeParse newPostId
    (req : UserAuthRequest Payload) u f d :
  truthy (userId req) = Some u →
  not_verified (find (λ r, bool_decide (user_id r = u)) (users d)) = true →
  f ≠ Some O →
  createPostController fk Payload safeParse newPostId req f d =
  (json 403 (ErrorMsg "User is not verified!"), d).
Proof.
  intros Hu Hv Hf. unfold createPostController, tryCatch, createPostBody.
  rewrite Hu. unfold mbind, M_bind, user_findFirst, call. simpl.
  destruct f as [[|n]|]; try done; simpl; by rewrite Hv.
Qed.

(** C2, at an unverified caller.  carol is not verified.  Her favorite
    request is answered 403 and writes nothing, but [likePostController] and
    [dislikePostController] never look the caller up: her like and her
    dislike are answered 200, the interaction row is stored and the counter
    of the post is incremented. *)
Theorem unverified_caller_reacts :
  not_verified (find (λ r, bool_decide (user_id r = "carol")) (users db_none)) = true ∧
  favoritePostController true (request "carol" "p1") None db_none =
    (json 403 (ErrorStr "User is not verified!"), db_none) ∧
  likePostController true (request "carol" "p1") None db_none =
    (json 200 (Reaction "Post liked successful" (Some 1) (Some 0)),
     reacted "carol" "p1" (mkInteraction true false) (sample_post 1 0) db_none) ∧
  dislikePostController true (request "carol" "p1") None db_none =
    (json 200 (Reaction "Post disliked successful" (Some 0) (Some 1)),
     reacted "carol" "p1" (mkInteraction false true) (sample_post 0 1) db_none).
Proof. repeat split; vm_compute; reflexivity. Qed.

(** ** Requests on a post that does not exist *)

Lemma missing_user_rejected fk {B} (req : UserAuthRequest B) f d :
  truthy (userId req) = None →
  likePostController fk req f d = (json 400 (ErrorStr "User ID is required."), d) ∧
  dislikePostController fk req f d = (json 400 (ErrorStr "User ID is required."), d).
Proof.
  intros Hu. unfold likePostController, dislikePostController, tryCatch,
    likePostBody, dislikePostBody. by rewrite Hu.
Qed.

(** A like on a post that does not exist, by a caller who has no liked row
    for it, throws inside a Prisma call and is answered 500. *)
Lemma like_missing_post fk {B} (req : UserAuthRequest B) u d :
  truthy (userId req) = Some u →
  posts d !! params_id req = None →
  was_liked d u (params_id req) = false →
  (likePostController fk req None d).1 = json 500 (ErrorStr "Failed to like the post.").
Proof.
  intros Hu Hp Hl. unfold was_liked in Hl.
  unfold likePostController, tryCatch, likePostBody. rewrite Hu.
  unfold mbind, M_bind, userPostInteraction_findUnique, userPostInteraction_update,
    userPostInteraction_create, post_update.
  rewrite call_nofault. simpl.
  destruct (interactions d !! (u, params_id req)) as [r|] eqn:Hr; simpl in *.
  - rewrite Hl, !call_nofault, Hr. simpl. rewrite !call_nofault. simpl.
    by rewrite Hp.
  - rewrite !call_nofault, Hr.
    destruct (fk && _); [done |]. simpl. rewrite !call_nofault. simpl.
    by rewrite Hp.
Qed.

Lemma dislike_missing_post fk {B} (req : UserAuthRequest B) u d :
  truthy (userId req) = Some u →
  posts d !! params_id req = None →
  was_disliked d u (params_id req) = false →
  (dislikePostController fk req None d).1 =
  json 500 (ErrorStr "Failed to dislike the post.").
Proof.
  intros Hu Hp Hl. unfold was_disliked in Hl.
  unfold dislikePostController, tryCatch, dislikePostBody. rewrite Hu.
  unfold mbind, M_bind, userPostInteraction_findUnique, userPostInteraction_update,
    userPostInteraction_create, post_update.
  rewrite call_nofault. simpl.
  destruct (interactions d !! (u, params_id req)) as [r|] eqn:Hr; simpl in *.
  - rewrite Hl, !call_nofault, Hr. simpl. rewrite !call_nofault. simpl.
    by rewrite Hp.
  - rewrite !call_nofault, Hr.
    destruct (fk && _); [done |]. simpl. rewrite !call_nofault. simpl.
    by rewrite Hp.
Qed.

(** C9, at a post that does not exist.  No post has the id "ghost".  bob's
    like and dislike of it are answered 500 ("Failed to like the post."),
    not 404; when the storage engine does not enforce the relations, the
    interaction row for the missing post has been written by then.  A
    request without user id is answered 400 and writes nothing. *)
Theorem reaction_on_missing_post :
  posts db_none !! "ghost" = None ∧
  likePostController true (request "bob" "ghost") None db_none =
    (json 500 (ErrorStr "Failed to like the post."), db_none) ∧
  dislikePostController true (request "bob" "ghost") None db_none =
    (json 500 (ErrorStr "Failed to dislike the post."), db_none) ∧
  likePostController false (request "bob" "ghost") None db_none =
    (json 500 (ErrorStr "Failed to like the post."),
     set_interactions (insert ("bob", "ghost") (mkInteraction true false)) db_none) ∧
  dislikePostController false (request "bob" "ghost") None db_none =
    (json 500 (ErrorStr "Failed to dislike the post."),
     set_interactions (insert ("bob", "ghost") (mkInteraction false true)) db_none) ∧
  likePostController true (mkReq None "ghost" tt) None db_none =
    (json 400 (ErrorStr "User ID is required."), db_none).
Proof. repeat split; vm_compute; reflexivity. Qed.

(** ** The cascade of [deletePostController] *)

Lemma call_fault_O {A} (op : Database → PrismaError + (A * Database)) d :
  call op (mkSt d (Some O)) = (inl StorageFailure, mkSt d (Some O)).
Proof. reflexivity. Qed.

Lemma call_fault_S {A} (op : Database → PrismaError + (A * Database)) d n :
  call op (mkSt d (Some (S n))) =
  match op d with
  | inl e => (inl e, mkSt d (Some n))
  | inr (a, d') => (inr a, mkSt d' (Some n))
  end.
Proof. reflexivity. Qed.

Lemma stage3_unreferenced p d :
  filter (λ kv, kv.1.2 = p) (interactions (cascade_stage 3 p d)) = ∅ ∧
  filter (λ c, comment_postId c = p) (comments (cascade_stage 3 p d)) = [] ∧
  filter (λ k, k.2 = p) (favorites (cascade_stage 3 p d)) = ∅.
Proof.
  simpl. repeat split.
  - apply map_empty. intros k. apply map_lookup_filter_None.
    destruct (filter _ (interactions d) !! k) as [r|] eqn:Hk; [right | by left].
    intros r' [= <-] Hkp. apply map_lookup_filter_Some in Hk as [_ Hne]. done.
  - induction (comments d) as [|c l IH]; [done |].
    rewrite (filter_cons _ c l). case_decide as Hc.
    + rewrite filter_cons. rewrite decide_False by done. exact IH.
    + exact IH.
  - apply leibniz_equiv. intros k. rewrite !elem_of_filter.
    split; [intros (? & ? & _); done | intros []%not_elem_of_empty].
Qed.

Lemma cascade_done_unreferenced p d : ¬ referenced p (cascade_done p d).
Proof.
  destruct (stage3_unreferenced p d) as (Hi & Hc & Hf).
  intros [(u & r & H)|[(c & Hin & Hcp)|(u & H)]]; simpl in *.
  - eapply (map_filter_empty_not_lookup _ _ (u, p) r Hi); done.
  - assert (c ∈ filter (λ c, comment_postId c = p)
                (filter (λ c, comment_postId c ≠ p) (comments d)))
      as Hin' by (by apply list_elem_of_filter).
    rewrite Hc in Hin'. by apply not_elem_of_nil in Hin'.
  - assert ((u, p) ∈ filter (λ k : string * string, k.2 = p)
                (filter (λ k : string * string, k.2 ≠ p) (favorites d)))
      as Hin' by (by apply elem_of_filter).
    rewrite Hf in Hin'. by apply not_elem_of_empty in Hin'.
Qed.

(** The outcome of an authorised delete, by the number of Prisma calls the
    storage layer answers: the lookup of the post comes first, then the
    three [deleteMany], then the delete of the post. *)
Lemma delete_outcome restrict (req : UserAuthRequest unit) u d post f :
  truthy (userId req) = Some u →
  posts d !! params_id req = Some post →
  authorId post = u →
  deletePostController restrict req f d =
  match f with
  | Some k =>
    if (k <=? 4)%nat
    then (json 500 (ErrorMsg "An unexpected error occurred"),
          cascade_stage (k - 1) (params_id req) d)
    else (json 200 (Message "Post deleted successfully"),
          cascade_done (params_id req) d)
  | None => (json 200 (Message "Post deleted successfully"),
             cascade_done (params_id req) d)
  end.
Proof.
  intros Hu Hp Ha.
  assert (Hfk : restrict && negb (bool_decide
    (filter (λ kv : string * string * UserPostInteraction, kv.1.2 = params_id req)
       (interactions (cascade_stage 3 (params_id req) d)) = ∅ ∧
     filter (λ c, comment_postId c = params_id req)
       (comments (cascade_stage 3 (params_id req) d)) = [] ∧
     filter (λ k : string * string, k.2 = params_id req)
       (favorites (cascade_stage 3 (params_id req) d)) = ∅)) = false).
  { rewrite bool_decide_eq_true_2 by apply stage3_unreferenced.
    apply andb_false_r. }
  unfold deletePostController, tryCatch, deletePostBody. rewrite Hu.
  unfold mbind, M_bind, post_findUnique, userPostInteraction_deleteMany,
    comment_deleteMany, favorite_deleteMany, post_delete.
  destruct f as [[|[|[|[|[|k]]]]]|]; simpl Nat.leb; cbv iota;
    repeat (first [rewrite call_fault_O | rewrite call_fault_S | rewrite call_nofault];
            simpl; rewrite ?Hp, ?(bool_decide_eq_false_2 (authorId post ≠ u)) by tauto;
            simpl);
    try reflexivity.
  all: simpl in Hfk; rewrite Hfk; reflexivity.
Qed.

Lemma cascade_stage_posts n p d : posts (cascade_stage n p d) = posts d.
Proof. by destruct n as [|[|[|n]]]. Qed.

(** C5, as the code has it.  An authorised delete runs the cascade as
    separate Prisma calls, with no transaction.  It is answered 200 with
    the interactions, comments and favorites of the post and the post itself
    removed, or it is answered 500 with the first [n] of the three
    [deleteMany] applied ([n] between 0 and 3) and the post still stored.
    Since the post row is deleted last, in no outcome does a remaining child
    row refer to a post that is gone; and without storage fault the request
    succeeds. *)
Theorem delete_cascade_stages (restrict : bool) (req : UserAuthRequest unit) (u : string)
    (d : Database) (post : Post) (f : option nat) :
  truthy (userId req) = Some u →
  posts d !! params_id req = Some post →
  authorId post = u →
  let p := params_id req in
  let r := deletePostController restrict req f d in
  (r = (json 200 (Message "Post deleted successfully"), cascade_done p d) ∨
   ∃ n, (n ≤ 3)%nat ∧
        r = (json 500 (ErrorMsg "An unexpected error occurred"), cascade_stage n p d) ∧
        posts r.2 !! p = Some post) ∧
  (posts r.2 !! p = None → ¬ referenced p r.2) ∧
  (f = None → r = (json 200 (Message "Post deleted successfully"), cascade_done p d)).
Proof.
  intros Hu Hp Ha p r. subst r.
  rewrite (delete_outcome restrict req u d post f Hu Hp Ha). fold p.
  assert (Hstage : ∀ n, posts (cascade_stage n p d) !! p = Some post)
    by (intros n; by rewrite cascade_stage_posts).
  destruct f as [k|]; [destruct (k <=? 4)%nat eqn:Hk |].
  - apply Nat.leb_le in Hk. split; [| split].
    + right. exists (k - 1)%nat. split; [lia |]. split; [done |]. apply Hstage.
    + simpl. by rewrite Hstage.
    + done.
  - split; [by left | split; [| done]]. intros _. apply cascade_done_unreferenced.
  - split; [by left | split; [| done]]. intros _. apply cascade_done_unreferenced.
Qed.

(** C5 as stated fails: alice deletes her post and the storage layer fails
    at the third Prisma call ([comment.deleteMany]); the request is
    answered 500, yet bob's interaction row is gone. *)
Lemma delete_not_atomic_counterexample :
  ¬ delete_is_atomic true (request "alice" "p1") (Some 2%nat) db_full.
Proof.
  intros H. unfold delete_is_atomic in H.
  assert (Hne : status (deletePostController true (request "alice" "p1")
                          (Some 2%nat) db_full).1 ≠ 200)
    by (vm_compute; discriminate).
  specialize (H Hne).
  apply (f_equal (λ d, interactions d !! ("bob", "p1"))) in H.
  vm_compute in H. discriminate H.
Qed.

Lemma delete_cascade_stages_witness :
  let r := deletePostController true (request "alice" "p1") (Some 2%nat) db_full in
  r = (json 500 (ErrorMsg "An unexpected error occurred"),
       cascade_stage 1 "p1" db_full) ∧
  (posts r.2 !! "p1" = None → ¬ referenced "p1" r.2).
Proof.
  destruct (delete_cascade_stages true (request "alice" "p1") "alice" db_full
              (sample_post 1 0) (Some 2%nat) eq_refl eq_refl eq_refl)
    as (_ & H & _).
  split; [vm_compute; reflexivity | exact H].
Defined.

(** ** The leaderboard *)

Lemma sumLikes_from acc l : foldl (λ sum x, sum + x)%Z acc l = (acc + foldr Z.add 0 l)%Z.
Proof.
  revert acc. induction l as [|x l IH]; intros acc; simpl; [lia |].
  rewrite IH. lia.
Qed.

Lemma sumLikes_sum l : sumLikes l = foldr Z.add 0%Z l.
Proof. unfold sumLikes. rewrite sumLikes_from. lia. Qed.

Lemma sort_insert_perm {A} (cmp : A → A → Z) x l :
  Permutation (sort_insert cmp x l) (x :: l).
Proof.
  induction l as [|y l IH]; simpl; [done |].
  destruct (cmp x y <=? 0)%Z; [done |].
  rewrite IH. apply perm_swap.
Qed.

Lemma Array_sort_perm {A} (cmp : A → A → Z) l : Permutation (Array_sort cmp l) l.
Proof.
  induction l as [|x l IH]; simpl; [done |].
  rewrite sort_insert_perm. by constructor.
Qed.

Lemma sort_insert_sorted x l :
  StronglySorted more_likes l →
  StronglySorted more_likes (sort_insert byTotalLikes x l).
Proof.
  induction 1 as [|y l Hs IH Hy]; simpl; [repeat constructor |].
  destruct (byTotalLikes x y <=? 0)%Z eqn:Hc.
  - apply Z.leb_le in Hc. unfold byTotalLikes in Hc.
    constructor; [by constructor |]. constructor; [unfold more_likes; lia |].
    eapply Forall_impl; [exact Hy |]. unfold more_likes. intros z Hz. simpl in *. lia.
  - apply Z.leb_gt in Hc. unfold byTotalLikes in Hc.
    constructor; [exact IH |].
    rewrite (sort_insert_perm byTotalLikes x l).
    constructor; [unfold more_likes; lia | exact Hy].
Qed.

Lemma Array_sort_sorted l : StronglySorted more_likes (Array_sort byTotalLikes l).
Proof.
  induction l as [|x l IH]; simpl; [constructor |]. by apply sort_insert_sorted.
Qed.

(** Stability: the users of any one total keep their order. *)
Lemma sort_insert_stable t x l :
  filter (λ y, totalLikes y = t) (sort_insert byTotalLikes x l) =
  filter (λ y, totalLikes y = t) (x :: l).
Proof.
  induction l as [|y l IH]; simpl; [done |].
  destruct (byTotalLikes x y <=? 0)%Z eqn:Hc; [done |].
  apply Z.leb_gt in Hc. unfold byTotalLikes in Hc.
  rewrite (filter_cons _ y), IH, !(filter_cons _ x), !(filter_cons _ y).
  repeat case_decide; try done; lia.
Qed.

Lemma Array_sort_stable t l :
  filter (λ y, totalLikes y = t) (Array_sort byTotalLikes l) =
  filter (λ y, totalLikes y = t) l.
Proof.
  induction l as [|x l IH]; simpl; [done |].
  rewrite sort_insert_stable, !(filter_cons _ x), IH. done.
Qed.

(** C6. The leaderboard gives every user the sum of the likes of the posts
    they authored; the users are arranged by decreasing total, each total's
    users in their order of enumeration (a stable sort of a permutation);
    only the first ten are kept; the entry at position [i] (from 0) has rank
    [i + 1] and the identity and total of the [i]-th sorted user.  For three
    users A, B, C with totals 5, 10, 10: B has rank 1, C rank 2, A rank 3. *)
Theorem leaderboard_ranking (rows : list UserWithPosts) :
  let totals := userLikes rows in
  let sorted := Array_sort byTotalLikes totals in
  let board := computeLeaderboard rows in
  totals = map (λ user, mkUserLikes (uwp_id user) (uwp_username user)
                          (uwp_count_posts user) (foldr Z.add 0%Z (uwp_posts user)))
               rows ∧
  Permutation sorted totals ∧
  StronglySorted more_likes sorted ∧
  (∀ t, filter (λ y, totalLikes y = t) sorted = filter (λ y, totalLikes y = t) totals) ∧
  length board = Nat.min 10 (length rows) ∧
  (∀ i, board !! i = toEntry i <$> take 10 sorted !! i) ∧
  (∀ i e, board !! i = Some e →
     (i < 10)%nat ∧ rank e = (Z.of_nat i + 1)%Z ∧
     ∃ user, sorted !! i = Some user ∧ e = toEntry i user) ∧
  computeLeaderboard leaderboard_ABC =
    [mkEntry 1 "B" "ben" 1 10; mkEntry 2 "C" "cat" 3 10; mkEntry 3 "A" "ann" 2 5].
Proof.
  intros totals sorted board. subst totals sorted board.
  assert (Hlookup : ∀ i, computeLeaderboard rows !! i =
            toEntry i <$> take 10 (Array_sort byTotalLikes (userLikes rows)) !! i).
  { intros i. unfold computeLeaderboard. apply list_lookup_imap. }
  repeat split.
  - unfold userLikes. apply map_ext. intros user. by rewrite sumLikes_sum.
  - apply Array_sort_perm.
  - apply Array_sort_sorted.
  - intros t. apply Array_sort_stable.
  - unfold computeLeaderboard. rewrite length_imap, length_take.
    rewrite (Permutation_length (Array_sort_perm byTotalLikes (userLikes rows))).
    unfold userLikes. rewrite length_map. lia.
  - exact Hlookup.
  - rewrite Hlookup in H.
    destruct (take 10 _ !! i) as [user|] eqn:Hi; [| done].
    apply lookup_lt_Some in Hi. rewrite length_take in Hi. lia.
  - rewrite Hlookup in H.
    destruct (take 10 _ !! i) as [user|] eqn:Hi; [| done].
    injection H as <-. done.
  - rewrite Hlookup in H.
    destruct (take 10 _ !! i) as [user|] eqn:Hi; [| done].
    injection H as <-. exists user. split; [| done].
    rewrite lookup_take_Some in Hi. tauto.
Qed.

(** The same three users through the controller, from the tables. *)
Lemma leaderboard_controller_ABC :
  getLeaderboardController None db_ABC =
  (json 200 (Leaderboard
     [mkEntry 1 "B" "ben" 1 10; mkEntry 2 "C" "cat" 3 10; mkEntry 3 "A" "ann" 2 5]),
   db_ABC).
Proof. vm_compute. reflexivity. Qed.

(** ** The theorems at the sample data *)

Lemma reaction_mutual_exclusion_witness :
  mutual_exclusion db_liked ∧
  mutual_exclusion (run true sample_ops db_liked) ∧
  ∀ o, mutual_exclusion (step true o (run true sample_ops db_liked)).2.
Proof.
  assert (H : mutual_exclusion db_liked)
    by (apply (bool_decide_unpack _); vm_compute; reflexivity).
  split; [exact H |]. exact (reaction_mutual_exclusion true sample_ops db_liked H).
Defined.

Lemma dislike_from_liked_and_guarded_decrement_witness :
  dislikePostController true (request "bob" "p1") None db_liked =
    (json 200 (Reaction "Post disliked successful" (Some 0) (Some 1)),
     reacted "bob" "p1" (mkInteraction false true) (sample_post 0 1) db_liked) ∧
  (∃ post', posts (likePostController true (request "bob" "p1") None db_disliked).2
              !! "p1" = Some post' ∧
            likes post' = 1 ∧ dislikes post' = 0) ∧
  (∃ post', posts (likePostController true (request "bob" "p1") None db_none).2
              !! "p1" = Some post' ∧
            likes post' = 1 ∧ dislikes post' = 0) ∧
  counters_synced (run true sample_flips db_liked) ∧
  ∀ q post', posts (run true sample_flips db_liked) !! q = Some post' →
             (0 ≤ likes post')%Z ∧ (0 ≤ dislikes post')%Z.
Proof.
  assert (Hs : counters_synced db_liked)
    by (apply (bool_decide_unpack _); vm_compute; reflexivity).
  assert (Hops : Forall no_fault sample_flips) by (repeat constructor).
  destruct (dislike_from_liked_and_guarded_decrement true (request "bob" "p1") "bob"
              db_liked (sample_post 1 0) eq_refl eq_refl) as (Ha & _ & _ & Hc).
  destruct (dislike_from_liked_and_guarded_decrement true (request "bob" "p1") "bob"
              db_disliked (sample_post 0 1) eq_refl eq_refl) as (_ & Hb & _ & _).
  destruct (dislike_from_liked_and_guarded_decrement true (request "bob" "p1") "bob"
              db_none (sample_post 0 0) eq_refl eq_refl) as (_ & Hn & _ & _).
  split; [exact (Ha eq_refl) |].
  split; [exact (Hb eq_refl (λ _ _, eq_refl)) |].
  split; [exact (Hn eq_refl (λ _ _, eq_refl)) |].
  exact (Hc Hs sample_flips Hops).
Defined.

Lemma repeated_reaction_rejected_witness :
  likePostController true (request "bob" "p1") None db_liked =
    (json 400 (ErrorStr "You have already liked this post."), db_liked) ∧
  dislikePostController true (request "bob" "p1") (Some 1%nat) db_disliked =
    (json 400 (ErrorStr "You have already disliked this post."), db_disliked).
Proof.
  split.
  - apply (repeated_reaction_rejected true (request "bob" "p1") "bob" None db_liked
             (mkInteraction true false)); [reflexivity | reflexivity | discriminate |].
    reflexivity.
  - apply (repeated_reaction_rejected true (request "bob" "p1") "bob" (Some 1%nat)
             db_disliked (mkInteraction false true));
      [reflexivity | reflexivity | discriminate |].
    reflexivity.
Defined.

(** C7 as stated fails from LIKED and from DISLIKED: when bob has already
    liked the post, the first like is rejected and [likes] ends where it
    started; when bob has disliked it, [dislikes] ends one lower. *)
Lemma flip_flop_counterexample :
  ¬ flip_flop_claim true (request "bob" "p1") "bob" db_liked (sample_post 1 0) ∧
  ¬ flip_flop_claim true (request "bob" "p1") "bob" db_disliked (sample_post 0 1).
Proof.
  split; intros (_ & post' & Hp & Hl & Hd); vm_compute in Hp;
    injection Hp as <-; simpl in *; discriminate.
Qed.

Lemma like_dislike_like_witness :
  flip_flop_claim true (request "bob" "p1") "bob" db_none (sample_post 0 0) ∧
  let d' := run true (flip_flop (request "bob" "p1")) db_disliked in
  interactions d' !! ("bob", "p1") = Some (mkInteraction true false) ∧
  ∃ post', posts d' !! "p1" = Some post' ∧ likes post' = 1 ∧ dislikes post' = 0.
Proof.
  split.
  - apply (like_dislike_like true (request "bob" "p1") "bob" db_none (sample_post 0 0));
      [reflexivity | reflexivity | intros; reflexivity | reflexivity].
  - apply (like_dislike_like true (request "bob" "p1") "bob" db_disliked
             (sample_post 0 1));
      [reflexivity | reflexivity | intros; reflexivity | reflexivity].
Defined.

Lemma favorite_transitions_witness :
  (let r1 := favoritePostController true (request "bob" "p1") None db_none in
   let r2 := unfavoritePostController (request "bob" "p1") None r1.2 in
   let r3 := favoritePostController true (request "bob" "p1") None r2.2 in
   let r4 := favoritePostController true (request "bob" "p1") None r3.2 in
   status r1.1 = 200 ∧ status r2.1 = 200 ∧ status r3.1 = 200 ∧
   ("bob", "p1") ∈ favorites r3.2 ∧
   r4 = (json 400 (ErrorStr "You have already favorited this post."), r3.2)) ∧
  unfavoritePostController (request "bob" "p1") None db_none =
    (json 400 (ErrorStr "You have not favorited this post."), db_none) ∧
  unfavoritePostController (request "bob" "p1") None db_full =
    (json 200 (Message "Post unfavorited successfully"),
     set_favorites (λ s, s ∖ {[ ("bob", "p1") ]}) db_full).
Proof.
  assert (Hout : ("bob", "p1") ∉ favorites db_none)
    by (apply (bool_decide_unpack _); vm_compute; reflexivity).
  assert (Hin : ("bob", "p1") ∈ favorites db_full)
    by (apply (bool_decide_unpack _); vm_compute; reflexivity).
  destruct (favorite_transitions true (request "bob" "p1") "bob"
              (mkUser "bob" "Bob" true) db_none eq_refl eq_refl eq_refl (λ _, eq_refl))
    as (_ & _ & _ & Hd & Hseq).
  destruct (favorite_transitions true (request "bob" "p1") "bob"
              (mkUser "bob" "Bob" true) db_full eq_refl eq_refl eq_refl (λ _, eq_refl))
    as (_ & _ & Hc & _).
  split; [exact (Hseq Hout) |]. split; [exact (Hd Hout) | exact (Hc Hin)].
Defined.

(** * Further properties of the controllers *)

(** ** Rules for [hoare] *)

Lemma hoare_ret {A} (P : Database → Prop) (a : A) (Q : A → Database → Prop) :
  (∀ d, P d → Q a d) → hoare P (mret a) Q.
Proof. intros H s b s' HP [= <- <-]. by apply H. Qed.

Lemma hoare_bind {A B} P (m : M A) (Q : A → Database → Prop) (k : A → M B) R :
  hoare P m Q → (∀ a, hoare (Q a) (k a) R) → hoare P (m ≫= k) R.
Proof.
  intros Hm Hk s b s' HP. unfold mbind, M_bind.
  destruct (m s) as [[e|a] s1] eqn:E; [done |].
  intros Hb. eapply Hk; [| exact Hb]. by eapply Hm.
Qed.

Lemma hoare_call {A} P (op : Database → PrismaError + (A * Database))
    (Q : A → Database → Prop) :
  (∀ d a d', P d → op d = inr (a, d') → Q a d') → hoare P (call op) Q.
Proof.
  intros Hop [d f] a s' HP. unfold call. simpl in *.
  destruct f as [[|n]|]; [done | |];
    destruct (op d) as [e|[b d']] eqn:E; try done; intros [= <- <-]; simpl; eauto.
Qed.

Lemma hoare_weaken {A} (P P' : Database → Prop) (m : M A) (Q Q' : A → Database → Prop) :
  hoare P' m Q' → (∀ d, P d → P' d) → (∀ a d, Q' a d → Q a d) → hoare P m Q.
Proof. intros H HP HQ s a s' Hs Hm. eapply HQ, H; eauto. Qed.

(** ** What like and dislike leave alone *)

Section ReactionFrame.

Variable fk : bool.
Variable u : option string.
Variable p : string.
Variable d0 : Database.

Lemma reaction_frame_refl : reaction_frame u p d0 d0.
Proof.
  repeat split; try done. intros q. destruct (posts d0 !! q); by constructor.
Qed.

Lemma frame_find_interaction v q :
  preserves (reaction_frame u p d0) (userPostInteraction_findUnique v q).
Proof. apply preserves_call. by intros d a d' H [= _ <-]. Qed.

Lemma frame_find_post q : preserves (reaction_frame u p d0) (post_findUnique q).
Proof. apply preserves_call. by intros d a d' H [= _ <-]. Qed.

Lemma frame_post_update data :
  preserves (reaction_frame u p d0) (post_update p data).
Proof.
  apply preserves_call. intros d a d' (Hu & Hf & Hc & Hp & Hi).
  destruct (posts d !! p) as [post|] eqn:Hpost; [intros [= _ <-] | done].
  repeat split; try done. intros q. simpl. specialize (Hp q).
  destruct (decide (p = q)) as [<-|Hne].
  - rewrite lookup_insert_eq. rewrite Hpost in Hp.
    inversion Hp as [x y [Hxy _] Ex Ey|].
    constructor. split; [| done].
    destruct Hxy as (? & ? & ? & ? & ? & ?). by repeat split.
  - rewrite lookup_insert_ne by done. exact Hp.
Qed.

Lemma frame_insert_interaction v r d :
  u = Some v →
  reaction_frame u p d0 d →
  reaction_frame u p d0 (set_interactions (insert (v, p) r) d).
Proof.
  intros -> (Hu & Hf & Hc & Hp & Hi). repeat split; try done.
  intros w q Hne. simpl. rewrite lookup_insert_ne; [by apply Hi |].
  intros [= <- <-]. by destruct Hne.
Qed.

Lemma frame_update_interaction v r :
  u = Some v →
  preserves (reaction_frame u p d0) (userPostInteraction_update v p r).
Proof.
  intros Hv. apply preserves_call. intros d a d' H.
  destruct (interactions d !! (v, p)); [intros [= _ <-] | done].
  by apply frame_insert_interaction.
Qed.

Lemma frame_create_interaction v r :
  u = Some v →
  preserves (reaction_frame u p d0) (userPostInteraction_create fk v p r).
Proof.
  intros Hv. apply preserves_call. intros d a d' H.
  destruct (interactions d !! (v, p)); [done |].
  destruct (fk && _); [done | intros [= _ <-]].
  by apply frame_insert_interaction.
Qed.

End ReactionFrame.

Lemma likePostBody_frame fk {B} (req : UserAuthRequest B) d0 :
  preserves (reaction_frame (truthy (userId req)) (params_id req) d0)
            (likePostBody fk req).
Proof.
  unfold likePostBody. destruct (truthy (userId req)) as [v|] eqn:Hv;
    [| apply preserves_ret].
  apply preserves_bind; [apply frame_find_interaction |].
  intros [i|].
  - destruct (liked i); [apply preserves_ret |].
    repeat (apply preserves_bind; intros);
      auto using frame_update_interaction, frame_post_update, frame_find_post,
                 preserves_ret.
  - repeat (apply preserves_bind; intros);
      auto using frame_create_interaction, frame_post_update, frame_find_post,
                 preserves_ret.
Qed.

Lemma dislikePostBody_frame fk {B} (req : UserAuthRequest B) d0 :
  preserves (reaction_frame (truthy (userId req)) (params_id req) d0)
            (dislikePostBody fk req).
Proof.
  unfold dislikePostBody. destruct (truthy (userId req)) as [v|] eqn:Hv;
    [| apply preserves_ret].
  apply preserves_bind; [apply frame_find_interaction |].
  intros [i|].
  - destruct (disliked i); [apply preserves_ret |].
    repeat (apply preserves_bind; intros);
      auto using frame_update_interaction, frame_post_update, frame_find_post,
                 preserves_ret.
  - repeat (apply preserves_bind; intros);
      auto using frame_create_interaction, frame_post_update, frame_find_post,
                 preserves_ret.
Qed.

Lemma step_frame fk o d :
  reaction_frame (truthy (userId (op_req o))) (params_id (op_req o)) d (step fk o d).2.
Proof.
  unfold step, likePostController, dislikePostController.
  destruct (op_action o); apply preserves_tryCatch;
    auto using likePostBody_frame, dislikePostBody_frame, reaction_frame_refl.
Qed.

(** X1. A like or dislike request, whatever its outcome and whatever the
    storage faults, leaves the users, the favorites and the comments as they
    were, creates and deletes no post, changes no column of a post but the
    two counters and no post but the one it names, and touches no
    interaction row but that of the caller on that post. *)
Theorem reaction_changes_only_its_pair (fk : bool) (o : Op) (d : Database) :
  reaction_frame (truthy (userId (op_req o))) (params_id (op_req o)) d (step fk o d).2.
Proof. apply step_frame. Qed.

(** ** What a 200 answer to a reaction means *)

Lemma hoare_tryCatch P (m : M Response) (Q : Response → Database → Prop) h f d :
  hoare P m Q → P d →
  (tryCatch m h f d).1 = json 500 h ∨ Q (tryCatch m h f d).1 (tryCatch m h f d).2.
Proof.
  intros Hm HP. unfold tryCatch.
  destruct (m (mkSt d f)) as [[e|r] s'] eqn:E; simpl; [by left | right].
  by eapply (Hm (mkSt d f)).
Qed.

Lemma respond_hoare a v p message :
  hoare (λ d, interactions d !! (v, p) = Some (written_row a) ∧ is_Some (posts d !! p))
        (post ← post_findUnique p;
         mret (json 200 (Reaction message (likes <$> post) (dislikes <$> post))))
        (λ r d', status r = 200 → reaction_accepted a v p r d').
Proof.
  eapply hoare_bind with
    (Q := λ post d, posts d !! p = post ∧ is_Some post ∧
                    interactions d !! (v, p) = Some (written_row a)).
  - apply hoare_call. intros d post d' [Hi Hp] [= <- <-]. by repeat split.
  - intros post. apply hoare_ret. intros d (Hp & [x Hx] & Hi) _.
    rewrite Hx in Hp. subst post. exists x, message. by repeat split.
Qed.

Lemma post_update_hoare a v p data :
  hoare (λ d, interactions d !! (v, p) = Some (written_row a))
        (post_update p data)
        (λ _ d, interactions d !! (v, p) = Some (written_row a) ∧ is_Some (posts d !! p)).
Proof.
  apply hoare_call. intros d x d' Hi.
  destruct (posts d !! p); [intros [= _ <-] | done]. simpl.
  split; [done |]. rewrite lookup_insert_eq. by eexists.
Qed.

Lemma store_then_respond_hoare a v p (store : M unit) data message :
  hoare (λ _, True) store (λ _ d, interactions d !! (v, p) = Some (written_row a)) →
  hoare (λ _, True)
        (_ ← store; _ ← post_update p data;
         post ← post_findUnique p;
         mret (json 200 (Reaction message (likes <$> post) (dislikes <$> post))))
        (λ r d', status r = 200 → reaction_accepted a v p r d').
Proof.
  intros Hstore. eapply hoare_bind; [exact Hstore |]. intros [].
  eapply hoare_bind; [apply post_update_hoare |]. intros []. apply respond_hoare.
Qed.

Lemma update_interaction_hoare v p r :
  hoare (λ _, True) (userPostInteraction_update v p r)
        (λ _ d, interactions d !! (v, p) = Some r).
Proof.
  apply hoare_call. intros d x d' _.
  destruct (interactions d !! (v, p)); [intros [= _ <-] | done].
  apply lookup_insert_eq.
Qed.

Lemma create_interaction_hoare fk v p r :
  hoare (λ _, True) (userPostInteraction_create fk v p r)
        (λ _ d, interactions d !! (v, p) = Some r).
Proof.
  apply hoare_call. intros d x d' _.
  destruct (interactions d !! (v, p)); [done |].
  destruct (fk && _); [done | intros [= _ <-]]. apply lookup_insert_eq.
Qed.

Lemma likePostBody_accepted fk {B} (req : UserAuthRequest B) :
  hoare (λ _, True) (likePostBody fk req)
        (λ r d', status r = 200 →
           ∃ v, truthy (userId req) = Some v ∧
                reaction_accepted Like v (params_id req) r d').
Proof.
  unfold likePostBody. destruct (truthy (userId req)) as [v|];
    [| by apply hoare_ret].
  eapply hoare_bind with (Q := λ _ _, True); [by apply hoare_call |].
  intros [i|].
  - destruct (liked i); [by apply hoare_ret |].
    eapply hoare_weaken;
      [apply (store_then_respond_hoare Like v), update_interaction_hoare | done |].
    intros r d' H Hr. exists v. split; [done | by apply H].
  - eapply hoare_weaken;
      [apply (store_then_respond_hoare Like v), create_interaction_hoare | done |].
    intros r d' H Hr. exists v. split; [done | by apply H].
Qed.

Lemma dislikePostBody_accepted fk {B} (req : UserAuthRequest B) :
  hoare (λ _, True) (dislikePostBody fk req)
        (λ r d', status r = 200 →
           ∃ v, truthy (userId req) = Some v ∧
                reaction_accepted Dislike v (params_id req) r d').
Proof.
  unfold dislikePostBody. destruct (truthy (userId req)) as [v|];
    [| by apply hoare_ret].
  eapply hoare_bind with (Q := λ _ _, True); [by apply hoare_call |].
  intros [i|].
  - destruct (disliked i); [by apply hoare_ret |].
    eapply hoare_weaken;
      [apply (store_then_respond_hoare Dislike v), update_interaction_hoare | done |].
    intros r d' H Hr. exists v. split; [done | by apply H].
  - eapply hoare_weaken;
      [apply (store_then_respond_hoare Dislike v), create_interaction_hoare | done |].
    intros r d' H Hr. exists v. split; [done | by apply H].
Qed.

(** X2. Whenever a like or dislike request is answered 200, whatever the
    database and the caller, the post exists, the [likes] and [dislikes] of the answer are the counters
    stored for it, and the row of the caller on the post is the reaction
    just made. *)
Theorem accepted_reaction_reports_stored_counters (fk : bool) (o : Op) (d : Database) :
  status (step fk o d).1 = 200 →
  ∃ v, truthy (userId (op_req o)) = Some v ∧
       reaction_accepted (op_action o) v (params_id (op_req o))
                         (step fk o d).1 (step fk o d).2.
Proof.
  unfold step, likePostController, dislikePostController.
  destruct (op_action o); intros Hs.
  - destruct (hoare_tryCatch _ _ _ (ErrorStr "Failed to like the post.") (op_fault o) d
                (likePostBody_accepted fk (op_req o)) I) as [H|H]; [| by apply H].
    by rewrite H in Hs.
  - destruct (hoare_tryCatch _ _ _ (ErrorStr "Failed to dislike the post.") (op_fault o) d
                (dislikePostBody_accepted fk (op_req o)) I) as [H|H]; [| by apply H].
    by rewrite H in Hs.
Qed.

Lemma accepted_reaction_reports_stored_counters_witness :
  ∃ v, truthy (userId (request "bob" "p1")) = Some v ∧
       reaction_accepted Dislike v "p1"
         (step true (mkOp Dislike (request "bob" "p1") None) db_liked).1
         (step true (mkOp Dislike (request "bob" "p1") None) db_liked).2.
Proof.
  apply (accepted_reaction_reports_stored_counters true
           (mkOp Dislike (request "bob" "p1") None) db_liked).
  vm_compute. reflexivity.
Defined.

(** ** Likes of distinct users add up *)

Lemma truthy_Some v : v ≠ EmptyString → truthy (Some v) = Some v.
Proof. by destruct v. Qed.

Lemma likes_add_up fk (us : list string) p : ∀ d post,
  NoDup us →
  posts d !! p = Some post →
  Forall (λ v, v ≠ EmptyString ∧ interactions d !! (v, p) = None ∧
               (fk = true → user_exists d v = true)) us →
  let d' := run fk (map (λ v, mkOp Like (request v p) None) us) d in
  (∃ post', posts d' !! p = Some post' ∧
            likes post' = (likes post + Z.of_nat (length us))%Z ∧
            dislikes post' = dislikes post) ∧
  Forall (λ v, interactions d' !! (v, p) = Some (mkInteraction true false)) us ∧
  (∀ w, w ∉ us → interactions d' !! (w, p) = interactions d !! (w, p)).
Proof.
  induction us as [|v us IH]; intros d post Hnd Hp Hall; simpl.
  { split; [| split; [constructor | done]].
    exists post. split; [done |]. split; [simpl; lia | done]. }
  apply NoDup_cons in Hnd as [Hv Hnd]. apply Forall_cons in Hall as [(Hne & Hrow & Hfk) Hall].
  assert (step fk (mkOp Like (request v p) None) d =
          likePostController fk (request v p) None d) as -> by reflexivity.
  pose proof (like_transition fk (request v p) v d post (truthy_Some v Hne) Hp) as Ht.
  simpl in Ht. unfold was_liked, was_disliked in Ht. rewrite Hrow in Ht. simpl in Ht.
  rewrite Ht by done. simpl.
  set (post1 := apply_counters (mkCounters (Some 1%Z) None) post).
  set (d1 := reacted v p (mkInteraction true false) post1 d).
  destruct (IH d1 post1 Hnd) as ((post' & Hp' & Hl' & Hd') & Hrows & Hother).
  { unfold d1, reacted. simpl. apply lookup_insert_eq. }
  { eapply Forall_impl; [apply Forall_and; split; [exact Hall | apply Forall_forall; intros w Hw; exact Hw] |].
    simpl. intros w [(Hwne & Hwrow & Hwfk) Hw]. repeat split; try done.
    unfold d1, reacted. simpl. rewrite lookup_insert_ne; [done |].
    intros [= ->]. done. }
  split; [| split].
  - exists post'. split; [done |]. subst post1. simpl in *. split; lia.
  - constructor; [| done]. rewrite (Hother v Hv).
    unfold d1, reacted. simpl. apply lookup_insert_eq.
  - intros w Hw. apply not_elem_of_cons in Hw as [Hwv Hw]. rewrite (Hother w Hw).
    unfold d1, reacted. simpl. rewrite lookup_insert_ne; [done |]. intros [= ->]. done.
Qed.

(** X3. When [n] distinct callers who have no row for an existing post like
    it one after the other (without storage fault), every request is stored:
    [likes] ends [n] higher, [dislikes] is unchanged, and each of them has
    the row [liked = true, disliked = false]. *)
Theorem likes_of_distinct_users_add_up (fk : bool) (us : list string) (p : string)
    (d : Database) (post : Post) :
  NoDup us →
  posts d !! p = Some post →
  Forall (λ v, v ≠ EmptyString ∧ interactions d !! (v, p) = None ∧
               (fk = true → user_exists d v = true)) us →
  let d' := run fk (map (λ v, mkOp Like (request v p) None) us) d in
  (∃ post', posts d' !! p = Some post' ∧
            likes post' = (likes post + Z.of_nat (length us))%Z ∧
            dislikes post' = dislikes post) ∧
  Forall (λ v, interactions d' !! (v, p) = Some (mkInteraction true false)) us.
Proof.
  intros Hnd Hp Hall. destruct (likes_add_up fk us p d post Hnd Hp Hall) as (H1 & H2 & _).
  by split.
Qed.

Lemma likes_of_distinct_users_add_up_witness :
  let d' := run true (map (λ v, mkOp Like (request v "p1") None) ["alice"; "bob"; "carol"])
                db_none in
  (∃ post', posts d' !! "p1" = Some post' ∧ likes post' = 3%Z ∧ dislikes post' = 0%Z) ∧
  Forall (λ v, interactions d' !! (v, "p1") = Some (mkInteraction true false))
         ["alice"; "bob"; "carol"].
Proof.
  apply (likes_of_distinct_users_add_up true ["alice"; "bob"; "carol"] "p1" db_none
           (sample_post 0 0)).
  - apply (bool_decide_unpack _). vm_compute. reflexivity.
  - reflexivity.
  - repeat constructor; try discriminate.
Defined.

(** ** The last reaction wins *)

Lemma reacted_twice u p r1 post1 r2 post2 d :
  reacted u p r2 post2 (reacted u p r1 post1 d) = reacted u p r2 post2 d.
Proof.
  unfold reacted, set_posts, set_interactions. simpl.
  by rewrite !insert_insert_eq.
Qed.

Lemma reacted_same u p r post d :
  interactions d !! (u, p) = Some r →
  posts d !! p = Some post →
  reacted u p r post d = d.
Proof.
  intros Hr Hp. destruct d as [us ps rows fs cs].
  unfold reacted, set_posts, set_interactions. simpl in *.
  by rewrite !insert_id.
Qed.

Lemma counters_cancel (a b : option Z) post :
  (default 0 a = 0)%Z → (default 0 b = 0)%Z →
  apply_counters (mkCounters a b) post = post.
Proof.
  intros Ha Hb. destruct post. unfold apply_counters. simpl. rewrite Ha, Hb.
  f_equal; lia.
Qed.

Lemma counters_compose (a b a' b' a'' b'' : option Z) post :
  (default 0 a + default 0 a' = default 0 a'')%Z →
  (default 0 b + default 0 b' = default 0 b'')%Z →
  apply_counters (mkCounters a' b') (apply_counters (mkCounters a b) post) =
  apply_counters (mkCounters a'' b'') post.
Proof. intros Ha Hb. unfold apply_counters. simpl. f_equal; lia. Qed.

Ltac side_with Hr :=
  solve [ done
        | unfold was_liked, was_disliked; rewrite Hr; done
        | rewrite Hr; done ].

Lemma like_then_dislike fk (req : UserAuthRequest unit) u d post :
  truthy (userId req) = Some u →
  posts d !! params_id req = Some post →
  (interactions d !! (u, params_id req) = None → fk = true → user_exists d u = true) →
  (dislikePostController fk req None (likePostController fk req None d).2).2 =
  (dislikePostController fk req None d).2.
Proof.
  intros Hu Hp Hfk.
  destruct (liked <$> interactions d !! (u, params_id req)) as [[]|] eqn:Hl.
  { destruct (interactions d !! (u, params_id req)) as [r|] eqn:Hr; [| done].
    injection Hl as Hl. by rewrite (like_rejected fk req u None d r Hu Hr). }
  all: assert (Hwl : was_liked d u (params_id req) = false)
    by (unfold was_liked; destruct (interactions d !! (u, params_id req)) as [r|];
        simpl in *; congruence).
  all: rewrite (like_transition fk req u d post Hu Hp Hwl Hfk); simpl.
  all: set (post1 := apply_counters _ post).
  all: set (d1 := reacted u (params_id req) _ post1 d).
  all: assert (Hr1 : interactions d1 !! (u, params_id req) = Some (mkInteraction true false))
    by (unfold d1, reacted; simpl; apply lookup_insert_eq).
  all: assert (Hp1 : posts d1 !! params_id req = Some post1)
    by (unfold d1, reacted; simpl; apply lookup_insert_eq).
  all: rewrite (dislike_transition fk req u d1 post1 Hu Hp1);
    [| side_with Hr1 | side_with Hr1].
  all: simpl; rewrite (was_liked_row _ _ _ _ Hr1); simpl.
  all: unfold d1; rewrite reacted_twice; unfold post1.
  all: destruct (was_disliked d u (params_id req)) eqn:Hwd.
  - destruct (interactions d !! (u, params_id req)) as [r|] eqn:Hr; [| done].
    unfold was_liked, was_disliked in *. rewrite Hr in Hwl, Hwd. simpl in *.
    rewrite (dislike_rejected fk req u None d r Hu Hr) by done. simpl.
    rewrite counters_compose with (a'' := None) (b'' := None) by done.
    rewrite counters_cancel by done. apply reacted_same; [| done].
    rewrite Hr. f_equal. destruct r. simpl in *. by subst.
  - rewrite (dislike_transition fk req u d post Hu Hp Hwd Hfk). simpl.
    rewrite Hwl. by rewrite counters_compose with (a'' := None) (b'' := Some 1%Z).
  - destruct (interactions d !! (u, params_id req)) as [r|] eqn:Hr; [done |].
    unfold was_disliked in Hwd. by rewrite Hr in Hwd.
  - rewrite (dislike_transition fk req u d post Hu Hp Hwd Hfk). simpl.
    rewrite Hwl. by rewrite counters_compose with (a'' := None) (b'' := Some 1%Z).
Qed.

Lemma dislike_then_like fk (req : UserAuthRequest unit) u d post :
  truthy (userId req) = Some u →
  posts d !! params_id req = Some post →
  (interactions d !! (u, params_id req) = None → fk = true → user_exists d u = true) →
  (likePostController fk req None (dislikePostController fk req None d).2).2 =
  (likePostController fk req None d).2.
Proof.
  intros Hu Hp Hfk.
  destruct (disliked <$> interactions d !! (u, params_id req)) as [[]|] eqn:Hl.
  { destruct (interactions d !! (u, params_id req)) as [r|] eqn:Hr; [| done].
    injection Hl as Hl. by rewrite (dislike_rejected fk req u None d r Hu Hr). }
  all: assert (Hwd : was_disliked d u (params_id req) = false)
    by (unfold was_disliked; destruct (interactions d !! (u, params_id req)) as [r|];
        simpl in *; congruence).
  all: rewrite (dislike_transition fk req u d post Hu Hp Hwd Hfk); simpl.
  all: set (post1 := apply_counters _ post).
  all: set (d1 := reacted u (params_id req) _ post1 d).
  all: assert (Hr1 : interactions d1 !! (u, params_id req) = Some (mkInteraction false true))
    by (unfold d1, reacted; simpl; apply lookup_insert_eq).
  all: assert (Hp1 : posts d1 !! params_id req = Some post1)
    by (unfold d1, reacted; simpl; apply lookup_insert_eq).
  all: rewrite (like_transition fk req u d1 post1 Hu Hp1);
    [| side_with Hr1 | side_with Hr1].
  all: simpl; rewrite (was_disliked_row _ _ _ _ Hr1); simpl.
  all: unfold d1; rewrite reacted_twice; unfold post1.
  all: destruct (was_liked d u (params_id req)) eqn:Hwl.
  - destruct (interactions d !! (u, params_id req)) as [r|] eqn:Hr; [| done].
    unfold was_disliked, was_liked in *. rewrite Hr in Hwd, Hwl. simpl in *.
    rewrite (like_rejected fk req u None d r Hu Hr) by done. simpl.
    rewrite counters_compose with (a'' := None) (b'' := None) by done.
    rewrite counters_cancel by done. apply reacted_same; [| done].
    rewrite Hr. f_equal. destruct r. simpl in *. by subst.
  - rewrite (like_transition fk req u d post Hu Hp Hwl Hfk). simpl.
    rewrite Hwd. by rewrite counters_compose with (a'' := Some 1%Z) (b'' := None).
  - destruct (interactions d !! (u, params_id req)) as [r|] eqn:Hr; [done |].
    unfold was_liked in Hwl. by rewrite Hr in Hwl.
  - rewrite (like_transition fk req u d post Hu Hp Hwl Hfk). simpl.
    rewrite Hwd. by rewrite counters_compose with (a'' := Some 1%Z) (b'' := None).
Qed.

(** X4. For a caller with a user id and an existing post, without storage
    fault, the later of two opposite reactions decides alone: a like followed
    by a dislike leaves exactly the database that the dislike alone leaves,
    and a dislike followed by a like exactly the database of the like alone,
    from any stored state of the pair. *)
Theorem last_reaction_wins (fk : bool) (req : UserAuthRequest unit) (u : string)
    (d : Database) (post : Post) :
  truthy (userId req) = Some u →
  posts d !! params_id req = Some post →
  (interactions d !! (u, params_id req) = None → fk = true → user_exists d u = true) →
  run fk [mkOp Like req None; mkOp Dislike req None] d =
    run fk [mkOp Dislike req None] d ∧
  run fk [mkOp Dislike req None; mkOp Like req None] d =
    run fk [mkOp Like req None] d.
Proof.
  intros Hu Hp Hfk. split.
  - by apply like_then_dislike with (u := u) (post := post).
  - by apply dislike_then_like with (u := u) (post := post).
Qed.

Lemma last_reaction_wins_witness :
  run true [mkOp Like (request "bob" "p1") None; mkOp Dislike (request "bob" "p1") None]
      db_disliked =
    run true [mkOp Dislike (request "bob" "p1") None] db_disliked ∧
  run true [mkOp Dislike (request "bob" "p1") None; mkOp Like (request "bob" "p1") None]
      db_disliked =
    run true [mkOp Like (request "bob" "p1") None] db_disliked.
Proof.
  apply (last_reaction_wins true (request "bob" "p1") "bob" db_disliked (sample_post 0 1));
    [reflexivity | reflexivity | intros; reflexivity].
Defined.

(** ** Favorites: round trip, frame and listing *)

Lemma set_favorites_id (d : Database) (f : gset (string * string) → gset (string * string)) :
  f (favorites d) = favorites d → set_favorites f d = d.
Proof. intros H. destruct d. unfold set_favorites. simpl in *. by rewrite H. Qed.

Lemma set_favorites_twice (d : Database) (f g : gset (string * string) → gset (string * string)) :
  set_favorites g (set_favorites f d) = set_favorites (λ s, g (f s)) d.
Proof. reflexivity. Qed.

(** X5. For a verified caller and an existing post, without storage fault:
    favorite then unfavorite restores the database exactly when the post was
    not a favorite, and unfavorite then favorite restores it exactly when it
    was. *)
Theorem favorite_unfavorite_round_trip (fk : bool) {B} (req : UserAuthRequest B)
    (u : string) (usr : User) (d : Database) :
  truthy (userId req) = Some u →
  find (λ r, bool_decide (user_id r = u)) (users d) = Some usr →
  verified usr = true →
  (fk = true → post_exists d (params_id req) = true) →
  ((u, params_id req) ∉ favorites d →
   (unfavoritePostController req None (favoritePostController fk req None d).2).2 = d) ∧
  ((u, params_id req) ∈ favorites d →
   (favoritePostController fk req None (unfavoritePostController req None d).2).2 = d).
Proof.
  intros Hu Husr Hv Hp. split; intros Hf.
  - rewrite (favorite_created fk req u usr d) by done. simpl.
    rewrite (unfavorite_deleted req u usr)
      by (try done; simpl; apply elem_of_union_l, elem_of_singleton; done).
    simpl. rewrite set_favorites_twice. apply set_favorites_id.
    apply leibniz_equiv. intros k.
    rewrite elem_of_difference, elem_of_union, elem_of_singleton.
    split; [intros [[->|?] ?]; done | intros ?; split; [by right | by intros ->]].
  - rewrite (unfavorite_deleted req u usr d) by done. simpl.
    rewrite (favorite_created fk req u usr)
      by (try done; simpl; rewrite elem_of_difference, elem_of_singleton; tauto).
    simpl. rewrite set_favorites_twice. apply set_favorites_id.
    apply leibniz_equiv. intros k.
    rewrite elem_of_union, elem_of_difference, elem_of_singleton.
    split; [intros [->|[? ?]]; done |].
    intros ?. destruct (decide (k = (u, params_id req))); [by left | by right].
Qed.

Lemma favorite_unfavorite_round_trip_witness :
  (unfavoritePostController (request "bob" "p1") None
     (favoritePostController true (request "bob" "p1") None db_none).2).2 = db_none ∧
  (favoritePostController true (request "bob" "p1") None
     (unfavoritePostController (request "bob" "p1") None db_full).2).2 = db_full.
Proof.
  split.
  - apply (favorite_unfavorite_round_trip true (request "bob" "p1") "bob"
             (mkUser "bob" "Bob" true) db_none eq_refl eq_refl eq_refl (λ _, eq_refl)).
    apply (bool_decide_unpack _). vm_compute. reflexivity.
  - apply (favorite_unfavorite_round_trip true (request "bob" "p1") "bob"
             (mkUser "bob" "Bob" true) db_full eq_refl eq_refl eq_refl (λ _, eq_refl)).
    apply (bool_decide_unpack _). vm_compute. reflexivity.
Defined.

Section FavoriteFrame.

Variable fk : bool.
Variable u : option string.
Variable p : string.
Variable d0 : Database.

Lemma favorite_frame_refl : favorite_frame u p d0 d0.
Proof. by repeat split. Qed.

Lemma frame_user_findFirst v : preserves (favorite_frame u p d0) (user_findFirst v).
Proof. apply preserves_call. by intros d a d' H [= _ <-]. Qed.

Lemma frame_favorite_findUnique v : preserves (favorite_frame u p d0) (favorite_findUnique v p).
Proof. apply preserves_call. by intros d a d' H [= _ <-]. Qed.

Lemma frame_favorite_create v :
  u = Some v → preserves (favorite_frame u p d0) (favorite_create fk v p).
Proof.
  intros ->. apply preserves_call. intros d a d' (Hu & Hp & Hi & Hc & Hf).
  destruct (bool_decide _); [done |]. destruct (fk && _); [done | intros [= _ <-]].
  repeat split; try done; simpl.
  - rewrite elem_of_union, elem_of_singleton. intros [->|Hk]; [| by apply Hf].
    simpl in *. by destruct H.
  - intros Hk. apply elem_of_union_r. by apply Hf.
Qed.

Lemma frame_favorite_delete v :
  u = Some v → preserves (favorite_frame u p d0) (favorite_delete v p).
Proof.
  intros ->. apply preserves_call. intros d a d' (Hu & Hp & Hi & Hc & Hf).
  destruct (bool_decide _); [intros [= _ <-] | done].
  repeat split; try done; simpl.
  - rewrite elem_of_difference. intros [Hk _]. by apply Hf.
  - intros Hk. apply elem_of_difference. split; [by apply Hf |].
    rewrite elem_of_singleton. intros ->. simpl in *. by destruct H.
Qed.

End FavoriteFrame.

Lemma favorite_step_frame fk {B} (req : UserAuthRequest B) f d :
  favorite_frame (truthy (userId req)) (params_id req) d
                 (favoritePostController fk req f d).2 ∧
  favorite_frame (truthy (userId req)) (params_id req) d
                 (unfavoritePostController req f d).2.
Proof.
  unfold favoritePostController, unfavoritePostController.
  split; apply preserves_tryCatch; try apply favorite_frame_refl.
  - unfold favoritePostBody. destruct (truthy (userId req)) as [v|];
      [| apply preserves_ret].
    apply preserves_bind; [apply frame_user_findFirst |]. intros user.
    destruct (not_verified user); [apply preserves_ret |].
    apply preserves_bind; [apply frame_favorite_findUnique |]. intros [];
      [apply preserves_ret |].
    apply preserves_bind; [by apply frame_favorite_create |]. intros.
    apply preserves_ret.
  - unfold unfavoritePostBody. destruct (truthy (userId req)) as [v|];
      [| apply preserves_ret].
    apply preserves_bind; [apply frame_user_findFirst |]. intros user.
    destruct (not_verified user); [apply preserves_ret |].
    apply preserves_bind; [apply frame_favorite_findUnique |]. intros [];
      [| apply preserves_ret].
    apply preserves_bind; [by apply frame_favorite_delete |]. intros.
    apply preserves_ret.
Qed.

(** X6. A favorite or unfavorite request, whatever its outcome and the
    storage faults, leaves users, posts (counters included), interaction
    rows and comments as they were and changes the Favorite row of no other
    pair than the caller's on the post it names. *)
Theorem favorite_changes_only_its_pair (fk : bool) {B} (req : UserAuthRequest B)
    (f : option nat) (d : Database) :
  favorite_frame (truthy (userId req)) (params_id req) d
                 (favoritePostController fk req f d).2 ∧
  favorite_frame (truthy (userId req)) (params_id req) d
                 (unfavoritePostController req f d).2.
Proof. apply favorite_step_frame. Qed.


Lemma hoare_tryCatchReply P (m : M Reply) (Q : Reply → Database → Prop) h f d :
  hoare P m Q → P d →
  (tryCatchReply m h f d).1 = reply 500 h ∨
  Q (tryCatchReply m h f d).1 (tryCatchReply m h f d).2.
Proof.
  intros Hm HP. unfold tryCatchReply.
  destruct (m (mkSt d f)) as [[e|r] s'] eqn:E; simpl; [by left | right].
  by eapply (Hm (mkSt d f)).
Qed.

Lemma elem_of_map {A B} (f : A → B) (l : list A) y :
  y ∈ map f l ↔ ∃ x, y = f x ∧ x ∈ l.
Proof.
  rewrite list_elem_of_In, in_map_iff. split; intros (x & H1 & H2); exists x.
  - by rewrite list_elem_of_In.
  - by rewrite <- list_elem_of_In.
Qed.

Lemma Forall2_elem_of_l {A B} (R : A → B → Prop) l k x :
  Forall2 R l k → x ∈ l → ∃ y, y ∈ k ∧ R x y.
Proof.
  intros H [i Hi]%list_elem_of_lookup.
  destruct (Forall2_lookup_l _ _ _ _ _ H Hi) as (y & Hy & HR).
  exists y. split; [exact (list_elem_of_lookup_2 _ _ _ Hy) | done].
Qed.

Lemma Forall2_elem_of_r {A B} (R : A → B → Prop) l k y :
  Forall2 R l k → y ∈ k → ∃ x, x ∈ l ∧ R x y.
Proof.
  intros H [i Hi]%list_elem_of_lookup.
  destruct (Forall2_lookup_r _ _ _ _ _ H Hi) as (x & Hx & HR).
  exists x. split; [exact (list_elem_of_lookup_2 _ _ _ Hx) | done].
Qed.

Lemma include_post_Some d k fav :
  include_post d k = Some fav →
  ∃ post author,
    posts d !! k.2 = Some post ∧
    find (λ r, bool_decide (user_id r = authorId post)) (users d) = Some author ∧
    fav = mkFavoriteWithPost k.1 k.2
            (select_post k.2 post (Some (user_id author, username author))).
Proof.
  unfold include_post. destruct (posts d !! k.2) as [post|]; [| done]. simpl.
  destruct (find _ (users d)) as [author|] eqn:Ha; [| done]. simpl.
  intros [= <-]. exists post, author. by repeat split.
Qed.

Lemma findMany_lists u d favs :
  mapM (include_post d) (elements (filter (λ k, k.1 = u) (favorites d))) = Some favs →
  lists_favorites_of u d (map (λ fav, fav_post fav) favs).
Proof.
  intros H%mapM_Some. split.
  - intros q. split.
    + intros (v & (fav & -> & Hfav)%elem_of_map & Hq).
      destruct (Forall2_elem_of_r _ _ _ _ H Hfav) as (k & Hk & Hinc).
      apply include_post_Some in Hinc as (post & author & _ & _ & ->).
      simpl in Hq. apply elem_of_elements, elem_of_filter in Hk as [Hku Hk].
      destruct k as [k1 k2]. simpl in *. by subst.
    + intros Hq.
      assert (Hk : (u, q) ∈ elements (filter (λ k : string * string, k.1 = u)
                                         (favorites d)))
        by (by apply elem_of_elements, elem_of_filter).
      destruct (Forall2_elem_of_l _ _ _ _ H Hk) as (fav & Hfav & Hinc).
      apply include_post_Some in Hinc as (post & author & _ & _ & ->).
      eexists. split; [apply elem_of_map; eexists; split; [reflexivity | exact Hfav] |].
      done.
  - intros v (fav & -> & Hfav)%elem_of_map.
    destruct (Forall2_elem_of_r _ _ _ _ H Hfav) as (k & Hk & Hinc).
    apply include_post_Some in Hinc as (post & author & Hp & Ha & ->).
    simpl. by exists post, author.
Qed.


Lemma getFavoritePostsBody_sound {B} (req : UserAuthRequest B) d0 :
  hoare (λ d, d = d0) (getFavoritePostsBody req)
        (λ r _, reply_status r = 200 →
           ∃ u usr l, truthy (userId req) = Some u ∧
                      find (λ r, bool_decide (user_id r = u)) (users d0) = Some usr ∧
                      verified usr = true ∧
                      reply_body r = FavoritePosts l ∧ lists_favorites_of u d0 l).
Proof.
  unfold getFavoritePostsBody. destruct (truthy (userId req)) as [u|];
    [| by apply hoare_ret].
  eapply hoare_bind with
    (Q := λ user d, d = d0 ∧ user = find (λ r, bool_decide (user_id r = u)) (users d0)).
  { apply hoare_call. by intros d a d' -> [= <- <-]. }
  intros user. destruct (not_verified user) eqn:Hv; [by apply hoare_ret |].
  eapply hoare_bind with
    (Q := λ favs d, user = find (λ r, bool_decide (user_id r = u)) (users d0) ∧
                    lists_favorites_of u d0 (map (λ fav, fav_post fav) favs)).
  { apply hoare_call. intros d favs d' [-> Hu].
    destruct (mapM _ _) as [l|] eqn:Hl; [| done]. intros [= <- <-].
    split; [done |]. by apply findMany_lists. }
  intros favs. apply hoare_ret. intros d [Hu Hl] _.
  destruct user as [usr|]; [| done]. simpl in Hv.
  exists u, usr, (map (λ fav, fav_post fav) favs).
  split; [done |]. split; [done |]. split; [by destruct (verified usr) |].
  split; [done | exact Hl].
Qed.


(** ** [deletePostController]: rejections, frame, and what follows a delete *)

Lemma delete_no_user restrict {B} (req : UserAuthRequest B) f d :
  truthy (userId req) = None →
  deletePostController restrict req f d = (json 403 (ErrorMsg "Invalid user"), d).
Proof.
  intros Hu. unfold deletePostController, tryCatch, deletePostBody. by rewrite Hu.
Qed.

Lemma delete_storage_down restrict {B} (req : UserAuthRequest B) u d :
  truthy (userId req) = Some u →
  deletePostController restrict req (Some O) d =
  (json 500 (ErrorMsg "An unexpected error occurred"), d).
Proof.
  intros Hu. unfold deletePostController, tryCatch, deletePostBody. by rewrite Hu.
Qed.

Lemma delete_not_found restrict {B} (req : UserAuthRequest B) u f d :
  truthy (userId req) = Some u →
  f ≠ Some O →
  posts d !! params_id req = None →
  deletePostController restrict req f d = (json 404 (ErrorMsg "Post not found"), d).
Proof.
  intros Hu Hf Hp. unfold deletePostController, tryCatch, deletePostBody.
  rewrite Hu. unfold mbind, M_bind, post_findUnique, call. simpl.
  destruct f as [[|n]|]; try done; simpl; by rewrite Hp.
Qed.

Lemma delete_not_author restrict {B} (req : UserAuthRequest B) u f d post :
  truthy (userId req) = Some u →
  f ≠ Some O →
  posts d !! params_id req = Some post →
  authorId post ≠ u →
  deletePostController restrict req f d =
  (json 403 (ErrorMsg "You are not authorized to delete this post"), d).
Proof.
  intros Hu Hf Hp Ha. unfold deletePostController, tryCatch, deletePostBody.
  rewrite Hu. unfold mbind, M_bind, post_findUnique, call. simpl.
  destruct f as [[|n]|]; try done; simpl; rewrite Hp; simpl;
    by rewrite bool_decide_eq_true_2.
Qed.

(** X8. A delete request writes nothing unless the caller is the author of
    the post: without user id it is answered 403 "Invalid user"; for a post
    that does not exist 404 "Post not found"; for a post of another author
    403 "You are not authorized to delete this post"; the database is left
    as it was each time. *)
Theorem delete_rejected_without_writes (restrict : bool) {B} (req : UserAuthRequest B)
    (f : option nat) (d : Database) :
  (truthy (userId req) = None →
   deletePostController restrict req f d = (json 403 (ErrorMsg "Invalid user"), d)) ∧
  (is_Some (truthy (userId req)) → f ≠ Some O → posts d !! params_id req = None →
   deletePostController restrict req f d = (json 404 (ErrorMsg "Post not found"), d)) ∧
  (∀ u post, truthy (userId req) = Some u → f ≠ Some O →
             posts d !! params_id req = Some post → authorId post ≠ u →
   deletePostController restrict req f d =
   (json 403 (ErrorMsg "You are not authorized to delete this post"), d)).
Proof.
  split; [| split].
  - apply delete_no_user.
  - intros [u Hu] Hf Hp. by eapply delete_not_found.
  - intros u post Hu Hf Hp Ha. by eapply delete_not_author.
Qed.

Lemma delete_rejected_without_writes_witness :
  deletePostController true (mkReq (Some EmptyString) "p1" tt) (Some O) db_full =
    (json 403 (ErrorMsg "Invalid user"), db_full) ∧
  deletePostController true (request "alice" "ghost") None db_full =
    (json 404 (ErrorMsg "Post not found"), db_full) ∧
  deletePostController true (request "bob" "p1") (Some 1%nat) db_full =
    (json 403 (ErrorMsg "You are not authorized to delete this post"), db_full).
Proof.
  split; [| split].
  - by apply (delete_rejected_without_writes true (mkReq (Some EmptyString) "p1" tt)
                (Some O) db_full).
  - apply (delete_rejected_without_writes true (request "alice" "ghost") None db_full);
      [by eexists | discriminate | reflexivity].
  - apply (delete_rejected_without_writes true (request "bob" "p1") (Some 1%nat) db_full)
      with (u := "bob") (post := sample_post 1 0);
      [reflexivity | discriminate | reflexivity | discriminate].
Defined.

Lemma filter_idem (p : string) (l : list Comment) :
  filter (λ c, comment_postId c ≠ p) (filter (λ c, comment_postId c ≠ p) l) =
  filter (λ c, comment_postId c ≠ p) l.
Proof.
  induction l as [|c l IH]; [done |].
  rewrite (filter_cons _ c l). case_decide; [| done].
  rewrite filter_cons. rewrite decide_True by done. by rewrite IH.
Qed.

Lemma delete_frame_refl p d : delete_frame p d d.
Proof. by repeat split. Qed.

Lemma delete_frame_trans p d1 d2 d3 :
  delete_frame p d1 d2 → delete_frame p d2 d3 → delete_frame p d1 d3.
Proof.
  intros (Hu & Hp & Hi & Hf & Hc & Sp & Si & Sf & Sc)
         (Hu' & Hp' & Hi' & Hf' & Hc' & Sp' & Si' & Sf' & Sc').
  split; [congruence |]. split; [intros q Hq; by rewrite Hp', Hp |].
  split; [intros v q Hq; by rewrite Hi', Hi |].
  split; [intros v q Hq; by rewrite Hf', Hf |].
  split; [congruence |].
  split; [by etrans |]. split; [by etrans |]. split; [by etrans |].
  intros c Hin. by apply Sc, Sc'.
Qed.

Lemma without_interactions_frame p d : delete_frame p d (without_interactions p d).
Proof.
  split; [done |]. split; [done |]. split.
  { intros v q Hq. simpl. destruct (interactions d !! (v, q)) as [r|] eqn:Hr.
    - by apply map_lookup_filter_Some.
    - apply map_lookup_filter_None. by left. }
  split; [done |]. split; [done |]. split; [done |]. split; [| done].
  simpl. apply map_filter_subseteq.
Qed.

Lemma without_comments_frame p d : delete_frame p d (without_comments p d).
Proof.
  split; [done |]. split; [done |]. split; [done |]. split; [done |].
  split; [apply filter_idem |]. split; [done |]. split; [done |]. split; [done |].
  simpl. intros c Hc. by apply list_elem_of_filter in Hc as [_ Hc].
Qed.

Lemma without_favorites_frame p d : delete_frame p d (without_favorites p d).
Proof.
  split; [done |]. split; [done |]. split; [done |]. split.
  { intros v q Hq. simpl. rewrite elem_of_filter. simpl. tauto. }
  split; [done |]. split; [done |]. split; [done |]. split; [| done].
  simpl. intros k Hk. by apply elem_of_filter in Hk as [_ Hk].
Qed.

Lemma delete_post_frame p d : delete_frame p d (set_posts (delete p) d).
Proof.
  split; [done |]. split; [intros q Hq; simpl; by rewrite lookup_delete_ne |].
  split; [done |]. split; [done |]. split; [done |].
  split; [apply delete_subseteq | done].
Qed.

Lemma cascade_stage_frame n p d : delete_frame p d (cascade_stage n p d).
Proof.
  destruct n as [|[|[|n]]]; simpl;
    eauto using delete_frame_refl, delete_frame_trans, without_interactions_frame,
                without_comments_frame, without_favorites_frame.
Qed.

Lemma cascade_done_frame p d : delete_frame p d (cascade_done p d).
Proof.
  eapply delete_frame_trans; [apply (cascade_stage_frame 3) | apply delete_post_frame].
Qed.

(** The database a delete request leaves: the one it found, a stage of the
    cascade, or the completed cascade. *)
Lemma delete_cases restrict (req : UserAuthRequest unit) f d :
  let d' := (deletePostController restrict req f d).2 in
  d' = d ∨ (∃ n, d' = cascade_stage n (params_id req) d) ∨
  d' = cascade_done (params_id req) d.
Proof.
  simpl. destruct (truthy (userId req)) as [u|] eqn:Hu.
  2: { left. by rewrite delete_no_user. }
  destruct (decide (f = Some O)) as [->|Hf].
  { left. by erewrite delete_storage_down. }
  destruct (posts d !! params_id req) as [post|] eqn:Hp.
  2: { left. by erewrite delete_not_found. }
  destruct (decide (authorId post = u)) as [Ha|Ha].
  2: { left. by erewrite delete_not_author. }
  rewrite (delete_outcome restrict req u d post f Hu Hp Ha).
  destruct f as [k|]; [destruct (k <=? 4)%nat |]; simpl; eauto.
Qed.

Lemma delete_leaves_other_posts_aux restrict (req : UserAuthRequest unit) f d :
  delete_frame (params_id req) d (deletePostController restrict req f d).2.
Proof.
  destruct (delete_cases restrict req f d) as [->|[[n ->]| ->]].
  - apply delete_frame_refl.
  - apply cascade_stage_frame.
  - apply cascade_done_frame.
Qed.

(** X9. Whatever its outcome and the storage faults, a delete request adds
    no row to any table and leaves every other post as it was: its row with
    its counters, its interaction rows, its favorites and its comments in
    their order. *)
Theorem delete_leaves_other_posts (restrict : bool) (req : UserAuthRequest unit)
    (f : option nat) (d : Database) :
  delete_frame (params_id req) d (deletePostController restrict req f d).2.
Proof. apply delete_leaves_other_posts_aux. Qed.

Lemma listing_sound {B} (req : UserAuthRequest B) f d :
  reply_status (getFavoritePostsController req f d).1 = 200 →
  ∃ u l, reply_body (getFavoritePostsController req f d).1 = FavoritePosts l ∧
         lists_favorites_of u d l.
Proof.
  intros Hs. unfold getFavoritePostsController in *.
  destruct (hoare_tryCatchReply _ _ _ (ReplyError "Failed to fetch favorite posts.")
              f d (getFavoritePostsBody_sound req d) eq_refl) as [H|H].
  - by rewrite H in Hs.
  - destruct (H Hs) as (u & usr & l & _ & _ & _ & Hb & Hl). by exists u, l.
Qed.

Lemma cascade_done_gone p d : posts (cascade_done p d) !! p = None.
Proof. simpl. apply lookup_delete_eq. Qed.

(** X10. After the author has deleted a post (without storage fault), the
    post is gone for every later request: another delete is answered 404
    "Post not found", a like or dislike of it by any caller is answered 500,
    and no listing of favorites, of any caller, shows it. *)
Theorem deleted_post_is_gone (restrict : bool) (req : UserAuthRequest unit) (u : string)
    (d : Database) (post : Post) :
  truthy (userId req) = Some u →
  posts d !! params_id req = Some post →
  authorId post = u →
  let p := params_id req in
  let d' := (deletePostController restrict req None d).2 in
  (∀ f, f ≠ Some O →
     deletePostController restrict req f d' = (json 404 (ErrorMsg "Post not found"), d')) ∧
  (∀ fk (req' : UserAuthRequest unit),
     is_Some (truthy (userId req')) → params_id req' = p →
     (likePostController fk req' None d').1 =
       json 500 (ErrorStr "Failed to like the post.") ∧
     (dislikePostController fk req' None d').1 =
       json 500 (ErrorStr "Failed to dislike the post.")) ∧
  (∀ (req' : UserAuthRequest unit) f' l,
     reply_status (getFavoritePostsController req' f' d').1 = 200 →
     reply_body (getFavoritePostsController req' f' d').1 = FavoritePosts l →
     ∀ v, v ∈ l → view_id v ≠ p).
Proof.
  intros Hu Hp Ha p d'. subst d'.
  rewrite (delete_outcome restrict req u d post None Hu Hp Ha). simpl. fold p.
  pose proof (cascade_done_gone p d) as Hgone.
  pose proof (cascade_done_unreferenced p d) as Hunref.
  split; [| split].
  - intros f Hf. by eapply delete_not_found.
  - intros fk req' [v Hv] Hp'.
    assert (Hrow : interactions (cascade_done p d) !! (v, p) = None).
    { destruct (interactions (cascade_done p d) !! (v, p)) as [r|] eqn:Hr; [| done].
      destruct Hunref. left. by exists v, r. }
    split.
    + apply like_missing_post with (u := v); rewrite ?Hp'; try done.
      unfold was_liked. by rewrite Hrow.
    + apply dislike_missing_post with (u := v); rewrite ?Hp'; try done.
      unfold was_disliked. by rewrite Hrow.
  - intros req' f' l Hs Hb v Hv Hid.
    destruct (listing_sound req' f' (cascade_done p d) Hs) as (w & l' & Hb' & Hl & _).
    rewrite Hb in Hb'. injection Hb' as <-.
    destruct Hunref. right; right. exists w. apply Hl. by exists v.
Qed.

Lemma deleted_post_is_gone_witness :
  let d' := (deletePostController true (request "alice" "p1") None db_full).2 in
  deletePostController true (request "alice" "p1") None d' =
    (json 404 (ErrorMsg "Post not found"), d') ∧
  (likePostController true (request "bob" "p1") None d').1 =
    json 500 (ErrorStr "Failed to like the post.").
Proof.
  destruct (deleted_post_is_gone true (request "alice" "p1") "alice" db_full
              (sample_post 1 0) eq_refl eq_refl eq_refl) as (H1 & H2 & _).
  split.
  - apply H1. discriminate.
  - apply (H2 true (request "bob" "p1")); [by eexists | reflexivity].
Defined.

Lemma delete_cases_nofault restrict (req : UserAuthRequest unit) d :
  let d' := (deletePostController restrict req None d).2 in
  d' = d ∨ d' = cascade_done (params_id req) d.
Proof.
  simpl. destruct (truthy (userId req)) as [u|] eqn:Hu.
  2: { left. by rewrite delete_no_user. }
  destruct (posts d !! params_id req) as [post|] eqn:Hp.
  2: { left. by erewrite delete_not_found. }
  destruct (decide (authorId post = u)) as [Ha|Ha].
  2: { left. by erewrite delete_not_author. }
  right. by rewrite (delete_outcome restrict req u d post None Hu Hp Ha).
Qed.

Lemma count_flag_cascade_done flag p q d :
  q ≠ p → count_flag flag (cascade_done p d) q = count_flag flag d q.
Proof.
  intros Hq. unfold count_flag. simpl. f_equal.
  apply map_filter_strong_ext_1. intros k r. rewrite map_lookup_filter_Some.
  simpl. split; [tauto |]. intros [[Hk Hf] Hr]. repeat split; try done. congruence.
Qed.

Lemma cascade_done_synced p d : counters_synced d → counters_synced (cascade_done p d).
Proof.
  intros H q post Hq. simpl in Hq. apply lookup_delete_Some in Hq as [Hne Hq].
  rewrite !count_flag_cascade_done by done. by apply H.
Qed.

(** X11. A delete request keeps the invariants of the reactions: no
    interaction row with both flags true appears, whatever the outcome and
    the storage faults; and without storage fault the counters of every
    remaining post still equal the numbers of its liked and disliked rows. *)
Theorem delete_keeps_reaction_invariants (restrict : bool) (req : UserAuthRequest unit)
    (f : option nat) (d : Database) :
  (mutual_exclusion d → mutual_exclusion (deletePostController restrict req f d).2) ∧
  (f = None → counters_synced d →
   counters_synced (deletePostController restrict req f d).2).
Proof.
  split.
  - intros H k r Hk.
    destruct (delete_leaves_other_posts_aux restrict req f d) as (_ & _ & _ & _ & _ & _ & Hsub & _).
    apply (H k r). by eapply lookup_weaken.
  - intros -> H. destruct (delete_cases_nofault restrict req d) as [-> | ->];
      [done | by apply cascade_done_synced].
Qed.

(** ** [createCommentController] and [createPostController] *)

Ltac run_calls :=
  repeat (first [rewrite call_fault_O | rewrite call_fault_S | rewrite call_nofault];
          simpl).

(** X12. A comment request is all or nothing and only ever appends: when it
    is answered 201 the caller is a verified user and the one write made is
    the new comment (the content of the body, the caller, the post named)
    appended after the comments already stored; with any other answer the
    database is exactly as it was. *)
Theorem comment_request_appends_or_nothing (fk : bool) (req : UserAuthRequest string)
    (f : option nat) (d : Database) :
  let r := createCommentController fk req f d in
  (status r.1 = 201 →
   ∃ u usr, truthy (userId req) = Some u ∧
            find (λ x, bool_decide (user_id x = u)) (users d) = Some usr ∧
            verified usr = true ∧
            let c := mkComment (req_body req) u (params_id req) in
            body r.1 = CreatedComment "Successfully created comment!" c ∧
            r.2 = set_comments (λ l, (l ++ [c])%list) d) ∧
  (status r.1 ≠ 201 → r.2 = d).
Proof.
  simpl. unfold createCommentController, tryCatch, createCommentBody.
  destruct (truthy (userId req)) as [u|] eqn:Hu; [| by split].
  unfold mbind, M_bind, user_findFirst, comment_create.
  destruct f as [[|[|n]]|]; run_calls; try (by split);
    (destruct (find _ (users d)) as [usr|] eqn:Husr; simpl; [| by split]);
    (destruct (verified usr) eqn:Hv; simpl; [| by split]);
    run_calls; try (by split);
    (destruct (fk && _); simpl; [by split |]);
    (split; [intros _; exists u, usr; by repeat split | done]).
Qed.

Lemma comment_request_appends_or_nothing_witness :
  let r := createCommentController true (mkReq (Some "bob") "p1" "Thanks") None db_full in
  comments r.2 = [mkComment "Nice" "bob" "p1"; mkComment "Thanks" "bob" "p1"] ∧
  createCommentController true (mkReq (Some "carol") "p1" "Hi") None db_full =
    (json 403 (ErrorMsg "User is not verified!"), db_full).
Proof.
  split.
  - destruct (comment_request_appends_or_nothing true (mkReq (Some "bob") "p1" "Thanks")
                None db_full) as [H _].
    destruct (H eq_refl) as (u & usr & Hu & _ & _ & _ & ->).
    injection Hu as <-. reflexivity.
  - vm_compute. reflexivity.
Defined.

Lemma formatted_fields (errors : list (string * string)) : ∀ acc : gmap string string,
  let m := foldl (λ o e, <[e.1 := e.2]> o) acc errors in
  (∀ k v, m !! k = Some v → acc !! k = Some v ∨ (k, v) ∈ errors) ∧
  (∀ k v, (k, v) ∈ errors → is_Some (m !! k)) ∧
  (∀ k, is_Some (acc !! k) → is_Some (m !! k)).
Proof.
  induction errors as [|[k0 v0] errors IH]; intros acc; simpl.
  { split; [by left | split; [by intros k v ?%not_elem_of_nil | done]]. }
  destruct (IH (<[k0 := v0]> acc)) as (H1 & H2 & H3). split; [| split].
  - intros k v Hk. destruct (H1 k v Hk) as [Hacc|Hin]; [| right; by right].
    rewrite lookup_insert in Hacc. case_decide as Hkk.
    + injection Hacc as <-. subst k0. right. by left.
    + by left.
  - intros k v [[= -> ->]|Hin]%elem_of_cons; [| by eapply H2].
    apply H3. rewrite lookup_insert_eq. by eexists.
  - intros k Hk. apply H3. rewrite lookup_insert. case_decide; [by eexists | done].
Qed.

Lemma createPost_cases fk {Payload : Type}
    (safeParse : Payload → list (string * string) + PostData)
    (newPostId : Database → string) (req : UserAuthRequest Payload) f d :
  let r := createPostController fk Payload safeParse newPostId req f d in
  (status r.1 = 201 →
   ∃ u data, truthy (userId req) = Some u ∧
             safeParse (req_body req) = inr data ∧
             posts d !! newPostId d = None ∧
             let post := mkPost (data_title data) (data_codeSnippet data)
                                (data_jsCodeSnippet data) (data_description data)
                                (data_tags data) 0 0 u in
             body r.1 = CreatedPost "Successfully created post!" (newPostId d) post ∧
             r.2 = set_posts (insert (newPostId d) post) d) ∧
  (status r.1 ≠ 201 → r.2 = d).
Proof.
  simpl. unfold createPostController, tryCatch, createPostBody.
  destruct (truthy (userId req)) as [u|] eqn:Hu; [| by split].
  unfold mbind, M_bind, user_findFirst, post_create.
  destruct f as [[|[|n]]|]; run_calls; try (by split);
    (destruct (find _ (users d)) as [usr|] eqn:Husr; simpl; [| by split]);
    (destruct (verified usr) eqn:Hv; simpl; [| by split]);
    (destruct (safeParse (req_body req)) as [errors|data] eqn:Hparse; simpl;
       [by split |]);
    run_calls; try (by split);
    (destruct (posts d !! newPostId d) eqn:Hid; simpl; [by split |]);
    (destruct (fk && _); simpl; [by split |]);
    (split; [intros _; exists u, data; by repeat split | done]).
Qed.

(** X13. A create-post request is all or nothing and never touches a stored
    post: when it is answered 201 the payload is valid and the one write
    made is the new post under a fresh id, with the validated content, the
    caller as author and both counters at 0; with any other answer the
    database is exactly as it was.  For a verified caller with an invalid
    payload the answer is 411, its body has "Invalid Inputs" under
    [message], every other key is a reported path with one of its messages,
    and every reported path is a key. *)
Theorem create_post_request_outcomes (fk : bool) {Payload : Type}
    (safeParse : Payload → list (string * string) + PostData)
    (newPostId : Database → string) (req : UserAuthRequest Payload)
    (f : option nat) (d : Database) :
  let r := createPostController fk Payload safeParse newPostId req f d in
  (status r.1 = 201 →
   ∃ u data, truthy (userId req) = Some u ∧
             safeParse (req_body req) = inr data ∧
             posts d !! newPostId d = None ∧
             let post := mkPost (data_title data) (data_codeSnippet data)
                                (data_jsCodeSnippet data) (data_description data)
                                (data_tags data) 0 0 u in
             body r.1 = CreatedPost "Successfully created post!" (newPostId d) post ∧
             r.2 = set_posts (insert (newPostId d) post) d) ∧
  (status r.1 ≠ 201 → r.2 = d) ∧
  (∀ q post, posts d !! q = Some post → posts r.2 !! q = Some post) ∧
  (∀ u usr errors,
     truthy (userId req) = Some u →
     find (λ x, bool_decide (user_id x = u)) (users d) = Some usr →
     verified usr = true → f ≠ Some O →
     safeParse (req_body req) = inl errors →
     ∃ fields, r.1 = json 411 (ErrorFields fields) ∧
               fields !! "message" = Some "Invalid Inputs" ∧
               (∀ k m, fields !! k = Some m →
                       (k = "message" ∧ m = "Invalid Inputs") ∨ (k, m) ∈ errors) ∧
               (∀ k m, (k, m) ∈ errors → is_Some (fields !! k))).
Proof.
  intros r. destruct (createPost_cases fk safeParse newPostId req f d) as [H201 Hother].
  fold r in H201, Hother. split; [exact H201 |]. split; [exact Hother |]. split.
  - intros q post Hq. destruct (decide (status r.1 = 201)) as [Hs|Hs].
    + destruct (H201 Hs) as (u & data & _ & _ & Hid & _ & ->). simpl.
      rewrite lookup_insert_ne; [done |]. intros <-. congruence.
    + by rewrite (Hother Hs).
  - intros u usr errors Hu Husr Hv Hf Hparse. subst r.
    unfold createPostController, tryCatch, createPostBody. rewrite Hu.
    unfold mbind, M_bind, user_findFirst.
    destruct (formatted_fields errors ∅) as (H1 & H2 & _).
    destruct f as [[|n]|]; [done | |]; run_calls; rewrite Husr; simpl; rewrite Hv; simpl;
      rewrite Hparse; simpl; eexists; (split; [reflexivity |]);
      (split; [apply lookup_insert_eq |]); (split; [| intros k m Hin]).
    all: try (intros k m; rewrite lookup_insert; case_decide as Hk;
              [intros [= <-]; left; by subst |
               intros Hkm; destruct (H1 k m Hkm) as [Hemp|Hin]; [by rewrite lookup_empty in Hemp | by right]]).
    all: rewrite lookup_insert; case_decide; [by eexists | by eapply H2].
Qed.

Lemma create_post_request_outcomes_witness :
  let data := mkPostData "Badge" "<span/>" "<span/>" "A badge" ["badge"] in
  let r := createPostController true PostData inr (λ _, "p2")
             (mkReq (Some "bob") "unused" data) None db_none in
  status r.1 = 201 ∧
  posts r.2 !! "p2" = Some (mkPost "Badge" "<span/>" "<span/>" "A badge" ["badge"] 0 0 "bob") ∧
  posts r.2 !! "p1" = Some (sample_post 0 0).
Proof.
  intros data r.
  destruct (create_post_request_outcomes true (inr : PostData → _ + PostData)
              (λ _, "p2") (mkReq (Some "bob") "unused" data) None db_none)
    as (H201 & _ & Hkeep & _).
  fold r in H201, Hkeep.
  assert (Hs : status r.1 = 201) by reflexivity.
  split; [exact Hs |]. split; [| by apply Hkeep].
  destruct (H201 Hs) as (u & data' & Hu & Hd & _ & _ & ->).
  injection Hu as <-. injection Hd as <-. reflexivity.
Defined.

(** ** [updatePostController] *)

Lemma update_ok (req : UserAuthRequest PostPatch) u usr d post :
  truthy (userId req) = Some u →
  find (λ x, bool_decide (user_id x = u)) (users d) = Some usr →
  verified usr = true →
  posts d !! params_id req = Some post →
  authorId post = u →
  updatePostController req None d =
  (reply 200 (UpdatedPost "Post updated successfully!"
                (select_post (params_id req) (apply_patch (req_body req) post) None)),
   set_posts (insert (params_id req) (apply_patch (req_body req) post)) d).
Proof.
  intros Hu Husr Hv Hp Ha. unfold updatePostController, tryCatchReply, updatePostBody.
  rewrite Hu. unfold mbind, M_bind, user_findFirst, post_findUnique, post_update_content.
  run_calls. rewrite Husr. simpl. rewrite Hv. simpl. run_calls. rewrite Hp. simpl.
  rewrite bool_decide_eq_false_2 by tauto. run_calls. by rewrite Hp.
Qed.

Lemma update_cases (req : UserAuthRequest PostPatch) f d :
  let r := updatePostController req f d in
  (reply_status r.1 = 200 →
   ∃ u usr post,
     truthy (userId req) = Some u ∧
     find (λ x, bool_decide (user_id x = u)) (users d) = Some usr ∧
     verified usr = true ∧
     posts d !! params_id req = Some post ∧ authorId post = u ∧
     r = (reply 200 (UpdatedPost "Post updated successfully!"
                       (select_post (params_id req) (apply_patch (req_body req) post) None)),
          set_posts (insert (params_id req) (apply_patch (req_body req) post)) d)) ∧
  (reply_status r.1 ≠ 200 → r.2 = d).
Proof.
  simpl. unfold updatePostController, tryCatchReply, updatePostBody.
  destruct (truthy (userId req)) as [u|] eqn:Hu; [| by split].
  unfold mbind, M_bind, user_findFirst, post_findUnique, post_update_content.
  destruct f as [[|[|[|n]]]|]; run_calls; try (by split);
    (destruct (find _ (users d)) as [usr|] eqn:Husr; simpl; [| by split]);
    (destruct (verified usr) eqn:Hv; simpl; [| by split]);
    run_calls; try (by split);
    (destruct (posts d !! params_id req) as [post|] eqn:Hp; simpl; [| by split]);
    (destruct (decide (authorId post = u)) as [Ha|Ha];
       [rewrite bool_decide_eq_false_2 by tauto
       | rewrite bool_decide_eq_true_2 by done; by split]);
    run_calls; try (by split); rewrite Hp; simpl;
    (split; [intros _; exists u, usr, post; by repeat split | done]).
Qed.

Lemma apply_patch_idem c post : apply_patch c (apply_patch c post) = apply_patch c post.
Proof.
  unfold apply_patch. destruct c as [[?|] [?|] [?|] [?|] [?|]]; reflexivity.
Qed.

Lemma count_flag_posts flag f d q : count_flag flag (set_posts f d) q = count_flag flag d q.
Proof. reflexivity. Qed.

(** X14. An update request is all or nothing and is applied for the verified
    author of the post only: when it is answered 200 the one write made
    replaces, on the post named, the content fields given in the body;
    [likes], [dislikes] and the author of that post, every other post and
    every other table are as they were, so counters that matched the
    interaction rows still match.  With any other answer the database is
    exactly as it was. *)
Theorem update_request_outcomes (req : UserAuthRequest PostPatch) (f : option nat)
    (d : Database) :
  let r := updatePostController req f d in
  (reply_status r.1 = 200 →
   ∃ u usr post,
     truthy (userId req) = Some u ∧
     find (λ x, bool_decide (user_id x = u)) (users d) = Some usr ∧
     verified usr = true ∧
     posts d !! params_id req = Some post ∧ authorId post = u ∧
     r.2 = set_posts (insert (params_id req) (apply_patch (req_body req) post)) d ∧
     ∃ post', posts r.2 !! params_id req = Some post' ∧
              likes post' = likes post ∧ dislikes post' = dislikes post ∧
              authorId post' = authorId post ∧
              title post' = default (title post) (patch_title (req_body req)) ∧
              tags post' = default (tags post) (patch_tags (req_body req))) ∧
  (reply_status r.1 ≠ 200 → r.2 = d) ∧
  (∀ q, q ≠ params_id req → posts r.2 !! q = posts d !! q) ∧
  (counters_synced d → counters_synced r.2).
Proof.
  intros r. destruct (update_cases req f d) as [H200 Hother]. fold r in H200, Hother.
  split; [| split; [exact Hother | split]].
  - intros Hs. destruct (H200 Hs) as (u & usr & post & Hu & Husr & Hv & Hp & Ha & Hr).
    exists u, usr, post. repeat (split; [done |]). rewrite Hr. simpl.
    split; [done |]. eexists. split; [apply lookup_insert_eq | done].
  - intros q Hq. destruct (decide (reply_status r.1 = 200)) as [Hs|Hs].
    + destruct (H200 Hs) as (u & usr & post & _ & _ & _ & _ & _ & ->). simpl.
      by rewrite lookup_insert_ne.
    + by rewrite (Hother Hs).
  - intros Hsync. destruct (decide (reply_status r.1 = 200)) as [Hs|Hs].
    + destruct (H200 Hs) as (u & usr & post & _ & _ & _ & Hp & _ & ->). simpl.
      intros q post' Hq. simpl in Hq. rewrite !count_flag_posts.
      rewrite lookup_insert in Hq. case_decide as Hpq.
      * injection Hq as <-. subst q. by apply (Hsync _ _ Hp).
      * by apply Hsync.
    + by rewrite (Hother Hs).
Qed.

Lemma update_request_outcomes_witness :
  let patch := mkPatch (Some "Card v2") None None None None in
  let r := updatePostController (mkReq (Some "alice") "p1" patch) None db_liked in
  reply_status r.1 = 200 ∧
  posts r.2 !! "p1" =
    Some (mkPost "Card v2" "<div class='card'/>" "<div className='card'/>" "A card"
                 ["card"] 1 0 "alice") ∧
  updatePostController (mkReq (Some "bob") "p1" patch) None db_liked =
    (reply 403 (ReplyError "You are not authorized to update this post!"), db_liked).
Proof.
  intros patch r.
  destruct (update_request_outcomes (mkReq (Some "alice") "p1" patch) None db_liked)
    as (H200 & _).
  fold r in H200. assert (Hs : reply_status r.1 = 200) by reflexivity.
  split; [exact Hs |]. split; [| vm_compute; reflexivity].
  destruct (H200 Hs) as (u & usr & post & _ & _ & _ & Hp & _ & -> & _).
  vm_compute in Hp. injection Hp as <-. reflexivity.
Defined.

(** X15. Updating twice with the same body is updating once: without
    storage fault, repeating an update request gives the same answer and
    leaves the same database as the first one did. *)
Theorem update_is_idempotent (req : UserAuthRequest PostPatch) (d : Database) :
  updatePostController req None (updatePostController req None d).2 =
  updatePostController req None d.
Proof.
  destruct (update_cases req None d) as [H200 Hother].
  destruct (decide (reply_status (updatePostController req None d).1 = 200)) as [Hs|Hs].
  - destruct (H200 Hs) as (u & usr & post & Hu & Husr & Hv & Hp & Ha & Hr).
    rewrite Hr. simpl.
    rewrite (update_ok req u usr _ (apply_patch (req_body req) post));
      try done; [| simpl; apply lookup_insert_eq].
    rewrite apply_patch_idem. f_equal.
    unfold set_posts. simpl. by rewrite insert_insert_eq.
  - by rewrite (Hother Hs).
Qed.

(** X16. An update request is refused, in this order and without any write:
    403 "Invalid user" without user id; 403 "User is not verified!" when the
    caller has no user row or is not verified, whether or not the post
    exists; 404 "Post not found!" for a verified caller when no post has the
    id; 403 "You are not authorized to update this post!" when the post
    belongs to another author. *)
Theorem update_rejected_in_order (req : UserAuthRequest PostPatch) (f : option nat)
    (d : Database) :
  (truthy (userId req) = None →
   updatePostController req f d = (reply 403 (ReplyError "Invalid user"), d)) ∧
  (∀ u, truthy (userId req) = Some u → f ≠ Some O →
        not_verified (find (λ x, bool_decide (user_id x = u)) (users d)) = true →
   updatePostController req f d = (reply 403 (ReplyError "User is not verified!"), d)) ∧
  (∀ u, truthy (userId req) = Some u → f ≠ Some O → f ≠ Some 1%nat →
        not_verified (find (λ x, bool_decide (user_id x = u)) (users d)) = false →
        posts d !! params_id req = None →
   updatePostController req f d = (reply 404 (ReplyError "Post not found!"), d)) ∧
  (∀ u post, truthy (userId req) = Some u → f ≠ Some O → f ≠ Some 1%nat →
        not_verified (find (λ x, bool_decide (user_id x = u)) (users d)) = false →
        posts d !! params_id req = Some post → authorId post ≠ u →
   updatePostController req f d =
   (reply 403 (ReplyError "You are not authorized to update this post!"), d)).
Proof.
  unfold updatePostController, tryCatchReply, updatePostBody.
  split; [| split; [| split]].
  - by intros ->.
  - intros u -> Hf Hv. unfold mbind, M_bind, user_findFirst.
    destruct f as [[|n]|]; [done | |]; run_calls; by rewrite Hv.
  - intros u -> Hf0 Hf1 Hv Hp. unfold mbind, M_bind, user_findFirst, post_findUnique.
    destruct f as [[|[|n]]|]; [done | done | |]; run_calls; rewrite Hv; run_calls;
      by rewrite Hp.
  - intros u post -> Hf0 Hf1 Hv Hp Ha.
    unfold mbind, M_bind, user_findFirst, post_findUnique.
    destruct f as [[|[|n]]|]; [done | done | |]; run_calls; rewrite Hv; run_calls;
      rewrite Hp; simpl; by rewrite bool_decide_eq_true_2.
Qed.

Lemma update_rejected_in_order_witness :
  let patch := mkPatch (Some "Mine") None None None None in
  updatePostController (mkReq (Some "carol") "ghost" patch) None db_liked =
    (reply 403 (ReplyError "User is not verified!"), db_liked) ∧
  updatePostController (mkReq (Some "bob") "ghost" patch) (Some 2%nat) db_liked =
    (reply 404 (ReplyError "Post not found!"), db_liked) ∧
  updatePostController (mkReq (Some "bob") "p1" patch) None db_liked =
    (reply 403 (ReplyError "You are not authorized to update this post!"), db_liked).
Proof.
  intros patch. split; [| split].
  - apply (update_rejected_in_order (mkReq (Some "carol") "ghost" patch) None db_liked)
      with (u := "carol"); [reflexivity | discriminate | reflexivity].
  - apply (update_rejected_in_order (mkReq (Some "bob") "ghost" patch) (Some 2%nat)
             db_liked) with (u := "bob");
      [reflexivity | discriminate | discriminate | reflexivity | reflexivity].
  - apply (update_rejected_in_order (mkReq (Some "bob") "p1" patch) None db_liked)
      with (u := "bob") (post := sample_post 1 0);
      [reflexivity | discriminate | discriminate | reflexivity | reflexivity
      | discriminate].
Defined.

(** ** The leaderboard: the cut at ten, and the totals it shows *)

Lemma sorted_lookup {A} (R : A → A → Prop) l : StronglySorted R l →
  ∀ i j a b, (i < j)%nat → l !! i = Some a → l !! j = Some b → R a b.
Proof.
  induction 1 as [|x l Hs IH Hx]; intros i j a b Hij Hi Hj; [done |].
  destruct j as [|j]; [lia |]. simpl in Hj. destruct i as [|i]; simpl in Hi.
  - injection Hi as <-. by eapply Forall_lookup_1.
  - eapply (IH i j); [lia | done | done].
Qed.

Lemma board_lookup rows i :
  computeLeaderboard rows !! i =
  toEntry i <$> take 10 (Array_sort byTotalLikes (userLikes rows)) !! i.
Proof. unfold computeLeaderboard. apply list_lookup_imap. Qed.

Lemma board_lookup_Some rows i e :
  computeLeaderboard rows !! i = Some e →
  (i < 10)%nat ∧
  ∃ user, Array_sort byTotalLikes (userLikes rows) !! i = Some user ∧ e = toEntry i user.
Proof.
  rewrite board_lookup. destruct (take 10 _ !! i) as [user|] eqn:Hi; [| done].
  intros [= <-]. apply lookup_take_Some in Hi as [Hi Hlt]. split; [done |]. by exists user.
Qed.

(** X17. The ten entries kept are the best: every user left off the
    leaderboard has at most as many likes as every user on it.  Down the
    leaderboard the totals never increase while the ranks increase strictly;
    and with at most ten users everybody is listed, exactly once per row of
    the query. *)
Theorem leaderboard_keeps_the_best (rows : list UserWithPosts) :
  let sorted := Array_sort byTotalLikes (userLikes rows) in
  let board := computeLeaderboard rows in
  (∀ i j e user, board !! i = Some e → sorted !! j = Some user → (10 ≤ j)%nat →
                 (totalLikes user ≤ entry_totalLikes e)%Z) ∧
  (∀ i j e e', (i < j)%nat → board !! i = Some e → board !! j = Some e' →
               (entry_totalLikes e' ≤ entry_totalLikes e)%Z ∧ (rank e < rank e')%Z) ∧
  ((length rows ≤ 10)%nat → entry_userId <$> board ≡ₚ uwp_id <$> rows).
Proof.
  intros sorted board. subst sorted board.
  pose proof (Array_sort_sorted (userLikes rows)) as Hsorted.
  split; [| split].
  - intros i j e user (Hi & x & Hx & ->)%board_lookup_Some Hj Hle. simpl.
    apply (sorted_lookup _ _ Hsorted i j x user); [lia | done | done].
  - intros i j e e' Hij (Hi & x & Hx & ->)%board_lookup_Some
                        (Hj & y & Hy & ->)%board_lookup_Some. simpl.
    split; [| lia]. by apply (sorted_lookup _ _ Hsorted i j x y).
  - intros Hlen. unfold computeLeaderboard.
    rewrite take_ge.
    2: { rewrite (Permutation_length (Array_sort_perm byTotalLikes (userLikes rows))).
         unfold userLikes. rewrite length_map. lia. }
    rewrite fmap_imap.
    assert (Himap : ∀ l : list UserLikes,
              imap (λ n, entry_userId ∘ toEntry n) l = ul_id <$> l).
    { intros l. apply list_eq. intros k.
      rewrite list_lookup_imap, list_lookup_fmap. by destruct (l !! k). }
    rewrite Himap, (Array_sort_perm byTotalLikes (userLikes rows)).
    unfold userLikes. clear. induction rows as [|row rows IH]; [done |].
    simpl. by constructor.
Qed.

Lemma leaderboard_result f d :
  getLeaderboardController f d =
  match f with
  | Some O => (json 500 (ErrorStr "Failed to fetch leaderboard."), d)
  | _ => (json 200 (Leaderboard (computeLeaderboard
            (map (λ u, mkUserWithPosts (user_id u) (username u)
                         (Z.of_nat (length (authored d (user_id u))))
                         (likes <$> authored d (user_id u)))
                 (users d)))), d)
  end.
Proof.
  unfold getLeaderboardController, tryCatch, getLeaderboardBody.
  unfold mbind, M_bind, user_findMany_withPosts.
  destruct f as [[|n]|]; run_calls; reflexivity.
Qed.

(** X18. The leaderboard request never writes and fails only when its one
    query fails.  Every entry of a 200 answer shows a stored user, with
    their name, the number of the posts they authored and the sum of the
    likes stored on these posts. *)
Theorem leaderboard_entries_from_tables (f : option nat) (d : Database) :
  let r := getLeaderboardController f d in
  r.2 = d ∧
  (f ≠ Some O → status r.1 = 200) ∧
  (status r.1 = 200 →
   ∃ board, body r.1 = Leaderboard board ∧ ∀ e, e ∈ board → entry_of_tables d e).
Proof.
  simpl. rewrite leaderboard_result.
  split; [by destruct f as [[|n]|] |]. split; [by destruct f as [[|n]|] |].
  intros Hs. eexists. split; [destruct f as [[|n]|]; [done | reflexivity..] |].
  intros e [i Hi]%list_elem_of_lookup.
  apply board_lookup_Some in Hi as (_ & x & Hx & ->).
  apply list_elem_of_lookup_2 in Hx.
  rewrite (Array_sort_perm byTotalLikes) in Hx.
  unfold userLikes in Hx. apply elem_of_map in Hx as (row & -> & Hrow).
  apply elem_of_map in Hrow as (usr & -> & Husr).
  exists usr. simpl. repeat split; try done.
  unfold author_total. by rewrite sumLikes_sum.
Qed.

Lemma sum_permutation (l l' : list Z) :
  l ≡ₚ l' → foldr Z.add 0%Z l = foldr Z.add 0%Z l'.
Proof. induction 1; simpl; lia. Qed.

Lemma total_of_insert (m : gmap string Post) p x :
  m !! p = None →
  foldr Z.add 0%Z (likes <$> (map_to_list (<[p := x]> m)).*2) =
  (likes x + foldr Z.add 0%Z (likes <$> (map_to_list m).*2))%Z.
Proof.
  intros Hp. rewrite (sum_permutation _ (likes <$> ((p, x) :: map_to_list m).*2)); [done |].
  by rewrite (map_to_list_insert m p x Hp).
Qed.

(** Replacing the row of a post by one of the same author moves the total
    of the author by the difference of the likes, and no other total. *)
Lemma author_total_replace d p post post' a :
  posts d !! p = Some post →
  authorId post' = authorId post →
  author_total (set_posts (insert p post') d) a =
  (author_total d a + if decide (authorId post = a) then likes post' - likes post else 0)%Z.
Proof.
  intros Hp Ha. unfold author_total, authored. simpl.
  set (P := λ kv : string * Post, authorId kv.2 = a).
  destruct (decide (authorId post = a)) as [Hpa|Hpa].
  - rewrite map_filter_insert_True by (unfold P; simpl; congruence).
    rewrite <- (insert_delete_eq (filter P (posts d))).
    rewrite total_of_insert by apply lookup_delete_eq.
    rewrite <- (insert_delete_id (filter P (posts d)) p post) at 2
      by (by apply map_lookup_filter_Some).
    rewrite total_of_insert by apply lookup_delete_eq. lia.
  - rewrite map_filter_insert_False by (unfold P; simpl; congruence).
    rewrite map_filter_delete_not; [lia |].
    intros y Hy. rewrite Hp in Hy. injection Hy as <-. done.
Qed.

(** X19. What a reaction does to the leaderboard totals: without storage
    fault, an accepted like of an existing post adds 1 to the total of the
    author of the post, an accepted dislike takes 1 from it exactly when the
    caller had liked the post, and the total of every other user is
    unchanged. *)
Theorem reaction_moves_author_total (fk : bool) {B} (req : UserAuthRequest B)
    (u : string) (d : Database) (post : Post) :
  truthy (userId req) = Some u →
  posts d !! params_id req = Some post →
  (interactions d !! (u, params_id req) = None → fk = true → user_exists d u = true) →
  let p := params_id req in
  (was_liked d u p = false →
   ∀ a, author_total (likePostController fk req None d).2 a =
        (author_total d a + if decide (authorId post = a) then 1 else 0)%Z) ∧
  (was_disliked d u p = false →
   ∀ a, author_total (dislikePostController fk req None d).2 a =
        (author_total d a -
         if decide (authorId post = a) then Z.b2z (was_liked d u p) else 0)%Z).
Proof.
  intros Hu Hp Hfk p. subst p. split; intros Hw a.
  - rewrite (like_transition fk req u d post Hu Hp Hw Hfk). simpl.
    unfold reacted.
    assert (author_total (set_posts (insert (params_id req)
              (apply_counters (mkCounters (Some 1%Z)
                 (if was_disliked d u (params_id req) then Some (-1)%Z else None)) post))
              (set_interactions (insert (u, params_id req) (mkInteraction true false)) d)) a
            = author_total (set_posts (insert (params_id req)
              (apply_counters (mkCounters (Some 1%Z)
                 (if was_disliked d u (params_id req) then Some (-1)%Z else None)) post))
              d) a) as -> by reflexivity.
    rewrite (author_total_replace d _ post) by done. simpl.
    destruct (decide (authorId post = a)); lia.
  - rewrite (dislike_transition fk req u d post Hu Hp Hw Hfk). simpl.
    unfold reacted.
    assert (author_total (set_posts (insert (params_id req)
              (apply_counters (mkCounters
                 (if was_liked d u (params_id req) then Some (-1)%Z else None)
                 (Some 1%Z)) post))
              (set_interactions (insert (u, params_id req) (mkInteraction false true)) d)) a
            = author_total (set_posts (insert (params_id req)
              (apply_counters (mkCounters
                 (if was_liked d u (params_id req) then Some (-1)%Z else None)
                 (Some 1%Z)) post))
              d) a) as -> by reflexivity.
    rewrite (author_total_replace d _ post) by done. simpl.
    destruct (decide (authorId post = a)); destruct (was_liked d u (params_id req));
      simpl; lia.
Qed.

Lemma reaction_moves_author_total_witness :
  author_total (likePostController true (request "bob" "p1") None db_none).2 "alice" = 1%Z ∧
  author_total (dislikePostController true (request "bob" "p1") None db_liked).2 "alice"
    = 0%Z ∧
  author_total (likePostController true (request "bob" "p1") None db_none).2 "bob" = 0%Z.
Proof.
  destruct (reaction_moves_author_total true (request "bob" "p1") "bob" db_none
              (sample_post 0 0) eq_refl eq_refl (λ _ _, eq_refl)) as [Hl _].
  destruct (reaction_moves_author_total true (request "bob" "p1") "bob" db_liked
              (sample_post 1 0) eq_refl eq_refl (λ _ _, eq_refl)) as [_ Hd].
  split; [| split].
  - rewrite (Hl eq_refl "alice"). reflexivity.
  - rewrite (Hd eq_refl "alice"). reflexivity.
  - rewrite (Hl eq_refl "bob"). reflexivity.
Defined.

(** ** [aiCustomization] *)

Lemma getCodeSnippetById_result id f d :
  getCodeSnippetById id (mkSt d f) =
  match f with
  | Some O => (inl StorageFailure, mkSt d f)
  | _ => (inr (from_option codeSnippet EmptyString (posts d !! id)), mkSt d (pred <$> f))
  end.
Proof.
  unfold getCodeSnippetById, mbind, M_bind, post_findUnique.
  destruct f as [[|n]|]; run_calls; reflexivity.
Qed.

(** X20. [aiCustomization] never writes to the database.  It asks the
    model only for a request that names a non-empty id and a non-empty
    query, a post that exists with a non-empty code snippet, and with an API
    key configured; the prompt then holds that snippet and that query, and
    the 200 answer is the text the model returned.  Without id or query the
    answer is 400, whatever the state of the storage; for a missing post or
    an empty snippet it is 404. *)
Theorem customization_outcomes (API_KEY : option string)
    (generateContent : string → string → option string)
    (req : UserAuthRequest (option string * option string)) (f : option nat)
    (d : Database) :
  let r := aiCustomization API_KEY generateContent req f d in
  r.2 = d ∧
  (truthy (req_body req).1 = None ∨ truthy (req_body req).2 = None →
   r.1 = reply 400 (ReplyError "ID and query are required")) ∧
  (∀ id query, truthy (req_body req).1 = Some id → truthy (req_body req).2 = Some query →
     f ≠ Some O → from_option codeSnippet EmptyString (posts d !! id) = EmptyString →
     r.1 = reply 404 (ReplyError "Code snippet not found")) ∧
  (reply_status r.1 = 200 →
   ∃ id query post key text,
     truthy (req_body req).1 = Some id ∧ truthy (req_body req).2 = Some query ∧
     posts d !! id = Some post ∧ codeSnippet post ≠ EmptyString ∧
     truthy API_KEY = Some key ∧
     generateContent key (customizationPrompt (codeSnippet post) query) = Some text ∧
     reply_body r.1 = CustomCode text).
Proof.
  simpl. unfold aiCustomization.
  destruct (truthy (req_body req).1) as [id|] eqn:Hid; [| by repeat split].
  destruct (truthy (req_body req).2) as [query|] eqn:Hq; [| by repeat split].
  rewrite getCodeSnippetById_result.
  assert (Hsnip : ∀ id0 query0 : string, Some id = Some id0 → Some query = Some query0 →
            from_option codeSnippet EmptyString (posts d !! id0) =
            from_option codeSnippet EmptyString (posts d !! id)) by (by intros ? ? [= <-] _).
  assert (Hno : Some id = None ∨ Some query = None → False) by (by intros [|]).
  destruct f as [[|n]|]; simpl;
    try (destruct (posts d !! id) as [post|] eqn:Hp; simpl);
    try (destruct (codeSnippet post) as [|c rest] eqn:Hc);
    try (destruct (truthy API_KEY) as [key|] eqn:Hk);
    try (destruct (generateContent key _) as [text|] eqn:Hg);
    (split; [reflexivity |]);
    (split; [intros H; by destruct (Hno H) |]);
    (split;
       [intros id0 query0 H1 H2 Hf Hs; try reflexivity; try done;
        rewrite (Hsnip id0 query0 H1 H2) in Hs; rewrite ?Hp in Hs; simpl in Hs;
        rewrite ?Hc in Hs; discriminate Hs
       | intros Hs; try discriminate Hs;
         exists id, query, post, key, text; rewrite Hc; by repeat split]).
Qed.

Lemma customization_outcomes_witness :
  let echo := λ (key prompt : string), Some prompt in
  aiCustomization (Some "key") echo
    (mkReq None "unused" (Some "p1", Some "a red border")) None db_none =
    (reply 200 (CustomCode (customizationPrompt "<div class='card'/>" "a red border")),
     db_none) ∧
  aiCustomization (Some "key") echo
    (mkReq None "unused" (Some "ghost", Some "a red border")) None db_none =
    (reply 404 (ReplyError "Code snippet not found"), db_none) ∧
  aiCustomization (Some "key") echo
    (mkReq None "unused" (Some "p1", Some EmptyString)) (Some O) db_none =
    (reply 400 (ReplyError "ID and query are required"), db_none).
Proof.
  intros echo.
  pose proof (customization_outcomes (Some "key") echo
                (mkReq None "unused" (Some "ghost", Some "a red border")) None db_none)
    as (Hdb & _ & H404 & _).
  pose proof (customization_outcomes (Some "key") echo
                (mkReq None "unused" (Some "p1", Some EmptyString)) (Some O) db_none)
    as (Hdb' & H400 & _).
  split; [vm_compute; reflexivity |]. split.
  - apply injective_projections; [| exact Hdb].
    apply (H404 "ghost" "a red border"); [reflexivity | reflexivity | discriminate |].
    reflexivity.
  - apply injective_projections; [| exact Hdb']. apply H400. by right.
Defined.

(** ** Requests without user id *)

(** X21. A request whose user id is missing or empty is refused by every
    controller that needs one before any storage call is made: the answer is
    the same whether or not the storage layer is available, and nothing is
    written.  Like, dislike, favorite, unfavorite and the listing of
    favorites answer 400; create-post, update, comment and delete answer
    403. *)
Theorem missing_user_id_refused_before_storage (fk restrict : bool) {Payload : Type}
    (safeParse : Payload → list (string * string) + PostData)
    (newPostId : Database → string) (uid : option string) (p : string)
    (f : option nat) (d : Database) :
  truthy uid = None →
  likePostController fk (mkReq uid p tt) f d =
    (json 400 (ErrorStr "User ID is required."), d) ∧
  dislikePostController fk (mkReq uid p tt) f d =
    (json 400 (ErrorStr "User ID is required."), d) ∧
  favoritePostController fk (mkReq uid p tt) f d =
    (json 400 (ErrorStr "User ID is required."), d) ∧
  unfavoritePostController (mkReq uid p tt) f d =
    (json 400 (ErrorStr "User ID is required."), d) ∧
  getFavoritePostsController (mkReq uid p tt) f d =
    (reply 400 (ReplyError "User ID is required."), d) ∧
  (∀ payload, createPostController fk Payload safeParse newPostId (mkReq uid p payload) f d =
    (json 403 (ErrorMsg "Invalid user"), d)) ∧
  (∀ patch, updatePostController (mkReq uid p patch) f d =
    (reply 403 (ReplyError "Invalid user"), d)) ∧
  (∀ content, createCommentController fk (mkReq uid p content) f d =
    (json 403 (ErrorStr "Invalid user"), d)) ∧
  deletePostController restrict (mkReq uid p tt) f d =
    (json 403 (ErrorMsg "Invalid user"), d).
Proof.
  intros Hu.
  unfold likePostController, dislikePostController, favoritePostController,
    unfavoritePostController, getFavoritePostsController, createPostController,
    updatePostController, createCommentController, deletePostController,
    tryCatch, tryCatchReply, likePostBody, dislikePostBody, favoritePostBody,
    unfavoritePostBody, getFavoritePostsBody, createPostBody, updatePostBody,
    createCommentBody, deletePostBody.
  simpl. rewrite Hu. by repeat split.
Qed.

Lemma missing_user_id_refused_before_storage_witness :
  favoritePostController true (mkReq (Some EmptyString) "p1" tt) (Some O) db_none =
    (json 400 (ErrorStr "User ID is required."), db_none) ∧
  updatePostController (mkReq None "p1" (mkPatch None None None None None)) (Some O)
    db_none = (reply 403 (ReplyError "Invalid user"), db_none).
Proof.
  destruct (missing_user_id_refused_before_storage true true
              (inr : PostData → _ + PostData) (λ _, "p2") (Some EmptyString) "p1"
              (Some O) db_none eq_refl) as (_ & _ & Hfav & _).
  destruct (missing_user_id_refused_before_storage true true
              (inr : PostData → _ + PostData) (λ _, "p2") None "p1"
              (Some O) db_none eq_refl) as (_ & _ & _ & _ & _ & _ & Hupd & _).
  split; [exact Hfav | apply Hupd].
Defined.
